(** * anweb/backend/app.js: filling spreadsheet templates from a JSON record list

    A shallow embedding of [src/backend/app.js] and the properties of its
    record loader, its template filler and its sheet cloner.

    The program is JavaScript on Node with the ExcelJS library.  The
    embedding has three layers:
    - [JS]: the JavaScript values the program handles and the operators it
      applies to them ([??], [||], property read, object spread);
    - [Excel]: the part of the ExcelJS object model the program calls
      (cells, merged ranges, worksheets of a workbook), after the library's
      documented behaviour;
    - [Section App]: the file system and the functions of [app.js], by their
      source names: [setCellValueKeepingMerge], the two variants of
      [fillDataToTemplate], [readDataWithClasscodes],
      [createCopiesFromTemplateAll] with its helper [getMergeRanges],
      [copyFormSheetToFile], and the two command-line blocks as [main] and
      [main_earlier].

    [console.log] and [console.error] change nothing that is modelled and
    are left out; what a command line prints is kept as its [report]. *)

From stdpp Require Import base option list gmap strings pretty.
From Stdlib Require Import ZArith Lia Ascii.

Set Warnings "-register-all".

(** ** JavaScript values *)

Module JS.

(** Values as JSON gives them, with [undefined].  An object maps property
    names to values.  Numbers: the one computation of the program is on array
    indices, so numbers are integers here; other numbers are data that is
    only moved around. *)
Inductive jsval :=
| JUndefined
| JNull
| JBool (b : bool)
| JNum (n : Z)
| JStr (s : string)
| JArr (elems : list jsval)
| JObj (fields : gmap string jsval).

(** What a [throw] carries: [new Error(message)] of the program, and the
    errors the runtime raises by itself. *)
Inductive exn :=
| Error (message : string)
| TypeError
| SyntaxError
| SystemError (code : string).

Inductive result (A : Type) :=
| Ok (a : A)
| Throw (e : exn).
Arguments Ok {A} a.
Arguments Throw {A} e.

(** Statements in sequence: the first [throw] ends the run. *)
#[global] Instance result_bind : MBind result := λ A B k r,
  match r with Ok a => k a | Throw e => Throw e end.

(** [v] in a condition: [if (v)], [v ? _ : _], [v || _]. *)
Definition truthy (v : jsval) : bool :=
  match v with
  | JUndefined | JNull => false
  | JBool b => b
  | JNum n => negb (n =? 0)%Z
  | JStr s => negb (bool_decide (s = ""))
  | JArr _ | JObj _ => true
  end.

(** [a ?? b] *)
Definition nullish (a b : jsval) : jsval :=
  match a with
  | JUndefined | JNull => b
  | _ => a
  end.

(** [a || b] *)
Definition or_else (a b : jsval) : jsval := if truthy a then a else b.

(** [Array.isArray(v)] *)
Definition isArray (v : jsval) : bool :=
  match v with JArr _ => true | _ => false end.

Definition chars (s : string) : list jsval :=
  (λ c, JStr (String c "")) <$> String.list_ascii_of_string s.

Definition indexed (l : list jsval) : gmap string jsval :=
  list_to_map (imap (λ i x, (pretty i, x)) l).

(** The own enumerable properties of a value, which is what a spread copies:
    the fields of an object, the elements of an array and the characters of a
    string under their indices, nothing for the other values.  (A string of
    the embedding is a string of bytes; JavaScript counts UTF-16 units, which
    is the same for ASCII.) *)
Definition own_props (v : jsval) : gmap string jsval :=
  match v with
  | JObj fields => fields
  | JArr elems => indexed elems
  | JStr s => indexed (chars s)
  | _ => ∅
  end.

(** [v.k] for the property names the program reads, none of which is
    inherited from a prototype: the own property, or [undefined]; reading a
    property of [null] or [undefined] throws. *)
Definition get (v : jsval) (k : string) : result jsval :=
  match v with
  | JUndefined | JNull => Throw TypeError
  | _ => Ok (default JUndefined (own_props v !! k))
  end.

(** [{ ...item, k: x }] *)
Definition spread_with (item : jsval) (k : string) (x : jsval) : jsval :=
  JObj (<[k := x]> (own_props item)).

(** [String(i)] for an array index. *)
Definition String_of_index (i : nat) : string := pretty i.

End JS.
Import JS.

(** ** The ExcelJS object model

    Modelled after the documented behaviour of the library the program
    calls; the library is not part of the repository.  A worksheet keeps its
    cells under (row, column), and its merged ranges as the range strings
    that [worksheet.model.merges] lists.  ExcelJS marks every member of a
    merged range with a reference to the top-left cell of the range, its
    master, and refuses to merge a range that meets a merged one, so that
    the marks and the ranges always agree; the embedding keeps the ranges
    and reads the master of a cell off them. *)

Module Excel.

(** *** Addresses and ranges *)

Definition addr : Type := nat * nat.

Record rect := { r_top : nat; r_left : nat; r_bottom : nat; r_right : nat }.

Definition is_upper (c : ascii) : bool :=
  (65 <=? nat_of_ascii c) && (nat_of_ascii c <=? 90).

Definition is_digit (c : ascii) : bool :=
  (48 <=? nat_of_ascii c) && (nat_of_ascii c <=? 57).

(** Column letters in base 26, [A] = 1. *)
Fixpoint letters (s : string) (acc : nat) : nat * string :=
  match s with
  | String c s' =>
      if is_upper c then letters s' (acc * 26 + (nat_of_ascii c - 64))
      else (acc, s)
  | EmptyString => (acc, s)
  end.

Fixpoint digits (s : string) (acc : nat) : nat * string :=
  match s with
  | String c s' =>
      if is_digit c then digits s' (acc * 10 + (nat_of_ascii c - 48))
      else (acc, s)
  | EmptyString => (acc, s)
  end.

(** ['C6'] is row 6, column 3. *)
Definition decodeAddress (s : string) : option addr :=
  let '(col, s1) := letters s 0 in
  let '(row, s2) := digits s1 0 in
  if bool_decide (s2 = "") && (0 <? col) && (0 <? row)
  then Some (row, col) else None.

(** [s.includes(':')] *)
Fixpoint includes_colon (s : string) : bool :=
  match s with
  | String c s' => if Ascii.eqb c ":" then true else includes_colon s'
  | EmptyString => false
  end.

Fixpoint split_colon (s : string) : option (string * string) :=
  match s with
  | String c s' =>
      if Ascii.eqb c ":" then Some ("", s')
      else prod_map (String c) id <$> split_colon s'
  | EmptyString => None
  end.

Definition corners (a b : addr) : rect :=
  {| r_top := a.1 `min` b.1; r_left := a.2 `min` b.2;
     r_bottom := a.1 `max` b.1; r_right := a.2 `max` b.2 |}.

(** ['A1:B2'], the form of the ranges of [model.merges]; the corners may
    come in any order. *)
Definition decodeRange (s : string) : option rect :=
  '(tl, br) ← split_colon s;
  a ← decodeAddress tl; b ← decodeAddress br; Some (corners a b).

Definition contains (d : rect) (a : addr) : bool :=
  (r_top d <=? a.1) && (a.1 <=? r_bottom d) &&
  (r_left d <=? a.2) && (a.2 <=? r_right d).

Definition intersects (d e : rect) : bool :=
  negb ((r_bottom e <? r_top d) || (r_bottom d <? r_top e) ||
        (r_right e <? r_left d) || (r_right d <? r_left e)).

Definition top_left (d : rect) : addr := (r_top d, r_left d).

(** The cells of a range but its top-left one, row by row. *)
Definition members (d : rect) : list addr :=
  filter (λ a, a ≠ top_left d)
    (r ← seq (r_top d) (S (r_bottom d) - r_top d);
     (λ c, (r, c)) <$> seq (r_left d) (S (r_right d) - r_left d)).

(** *** Cells and worksheets *)

Record cell := { value : jsval; style : jsval }.

(** A cell that was never written: [null], with the empty style. *)
Definition blank : cell := {| value := JNull; style := JObj ∅ |}.

Record row_props := { height : jsval; outlineLevel : jsval; hidden : jsval }.

Definition no_props : row_props :=
  {| height := JUndefined; outlineLevel := JUndefined; hidden := JUndefined |}.

Record worksheet := {
  name : string;
  properties : jsval;
  pageSetup : jsval;
  views : jsval;
  pageMargins : jsval;
  headerFooter : jsval;
  columns : jsval;
  rows : gmap nat row_props;
  cells : gmap addr cell;
  merges : list string
}.

Definition with_cells (cs : gmap addr cell) (ws : worksheet) : worksheet :=
  {| name := name ws; properties := properties ws; pageSetup := pageSetup ws;
     views := views ws; pageMargins := pageMargins ws;
     headerFooter := headerFooter ws; columns := columns ws; rows := rows ws;
     cells := cs; merges := merges ws |}.

Definition with_rows (rs : gmap nat row_props) (ws : worksheet) : worksheet :=
  {| name := name ws; properties := properties ws; pageSetup := pageSetup ws;
     views := views ws; pageMargins := pageMargins ws;
     headerFooter := headerFooter ws; columns := columns ws; rows := rs;
     cells := cells ws; merges := merges ws |}.

Definition with_name (n : string) (ws : worksheet) : worksheet :=
  {| name := n; properties := properties ws; pageSetup := pageSetup ws;
     views := views ws; pageMargins := pageMargins ws;
     headerFooter := headerFooter ws; columns := columns ws; rows := rows ws;
     cells := cells ws; merges := merges ws |}.

(** [sheet.getCell(address)]: the cell, blank when it was never written. *)
Definition getCell (ws : worksheet) (a : addr) : cell :=
  default blank (cells ws !! a).

(** [sheet.getRow(n)] *)
Definition getRow (ws : worksheet) (r : nat) : row_props :=
  default no_props (rows ws !! r).

(** The rectangles of [sheet.model.merges]. *)
Definition merge_rects (ws : worksheet) : list rect :=
  omap decodeRange (merges ws).

(** [cell.master]: the top-left cell of the merged range the cell lies in,
    the cell itself when it is in none. *)
Definition master (ws : worksheet) (a : addr) : addr :=
  match find (λ d, contains d a) (merge_rects ws) with
  | Some d => top_left d
  | None => a
  end.

(** [cell.value] read: a merged cell shows the value of its master. *)
Definition cell_value (ws : worksheet) (a : addr) : jsval :=
  value (getCell ws (master ws a)).

(** [cell.value = v]: a merged cell hands the value to its master. *)
Definition set_value (a : addr) (v : jsval) (ws : worksheet) : worksheet :=
  let m := master ws a in
  with_cells (<[m := {| value := v; style := style (getCell ws m) |}]> (cells ws)) ws.

(** [cell.style = st] *)
Definition set_style (a : addr) (st : jsval) (ws : worksheet) : worksheet :=
  with_cells (<[a := {| value := value (getCell ws a); style := st |}]> (cells ws)) ws.

(** [cell.type === Excel.ValueType.Formula] *)
Definition is_formula (v : jsval) : bool :=
  match v with
  | JObj f =>
      truthy (default JUndefined (f !! "formula")) ||
      truthy (default JUndefined (f !! "sharedFormula"))
  | _ => false
  end.

(** [sheet.mergeCells(range)]: throws on a range that does not decode and
    on a range that meets a merged one; else every cell of the range but the
    top-left one gives up its value and takes the style of the top-left
    one, and the range is recorded. *)
Definition mergeCells (range : string) (ws : worksheet) : result worksheet :=
  match decodeRange range with
  | None => Throw (Error ("Invalid range: " +:+ range))
  | Some d =>
      if existsb (intersects d) (merge_rects ws)
      then Throw (Error "Cannot merge already merged cells")
      else
        let st := style (getCell ws (top_left d)) in
        let member := {| value := JNull; style := st |} in
        Ok {| name := name ws; properties := properties ws;
              pageSetup := pageSetup ws; views := views ws;
              pageMargins := pageMargins ws; headerFooter := headerFooter ws;
              columns := columns ws; rows := rows ws;
              cells := foldr (λ a cs, <[a := member]> cs) (cells ws) (members d);
              merges := merges ws ++ [range] |}
  end.

(** [sheet.rowCount] and [row.cellCount]: the last row that exists and the
    last cell of a row that exists, which bound [eachRow] and [eachCell]
    with [includeEmpty]. *)
Definition rowCount (ws : worksheet) : nat :=
  max_list ((map_to_list (rows ws)).*1 ++ (map_to_list (cells ws)).*1.*1).

Definition cellCount (ws : worksheet) (r : nat) : nat :=
  max_list ((filter (λ a : addr, a.1 = r) (map_to_list (cells ws)).*1).*2).

(** [JSON.parse(JSON.stringify(v))], the deep copy of a value: values of the
    embedding are never shared, so the copy is the value. *)
Definition deep_copy (v : jsval) : jsval := v.

(** [Object.keys(v).length > 0] *)
Definition has_keys (v : jsval) : bool := bool_decide (own_props v ≠ ∅).

(** [sheet.model = model] where [model] is the deep copy of the model of
    [src]: the sheet takes over the name, the columns, the rows with their
    cells, the merged ranges and the sheet-level settings of [src]. *)
Definition set_model (src ws : worksheet) : worksheet :=
  {| name := name src; properties := properties src;
     pageSetup := pageSetup src; views := views src;
     pageMargins := pageMargins ws; headerFooter := headerFooter src;
     columns := columns src; rows := rows src;
     cells := cells src; merges := merges src |}.

(** *** Workbooks

    [workbook._worksheets]: the worksheets under their ids, with a hole
    where a worksheet was removed; index 0 is never used. *)
Abbreviation workbook := (list (option worksheet)).

(** [workbook.getWorksheet(name)], with the id of the worksheet. *)
Definition getWorksheet (n : string) (wb : workbook) : option (nat * worksheet) :=
  '(id, o) ← list_find (λ o, name <$> o = Some n) wb; ws ← o; Some (id, ws).

(** [workbook.removeWorksheet(id)] *)
Definition removeWorksheet (id : nat) (wb : workbook) : workbook :=
  match wb !! id with
  | Some (Some _) => <[id := None]> wb
  | _ => wb
  end.

(** [workbook.nextId]: the first free id from 1 on. *)
Definition nextId (wb : workbook) : nat :=
  match list_find (λ o : option worksheet, o = None) (drop 1 wb) with
  | Some (i, _) => S i
  | None => length wb `max` 1
  end.

(** [a[i] = x] on a JavaScript array, which grows when [i] is past its end. *)
Definition array_set {A} (i : nat) (x : A) (l : list (option A)) : list (option A) :=
  if decide (i < length l) then <[i := Some x]> l
  else l ++ replicate (i - length l) None ++ [Some x].

(** The settings a new worksheet starts from when none is given. *)
Definition defaultProperties : gmap string jsval :=
  list_to_map [("defaultRowHeight", JNum 15); ("dyDescent", JNum 55);
               ("outlineLevelCol", JNum 0); ("outlineLevelRow", JNum 0)].

(** [workbook.addWorksheet(name, { properties, pageSetup, views })]: a
    worksheet without cells under the next id; the given properties and page
    setup are laid over the defaults. *)
Definition addWorksheet (n : string) (props setup vws : jsval) (wb : workbook)
  : workbook * (nat * worksheet) :=
  let id := nextId wb in
  let ws := {| name := n;
               properties := JObj (own_props props ∪ defaultProperties);
               pageSetup := JObj (own_props setup);
               views := vws; pageMargins := JUndefined;
               headerFooter := JObj ∅; columns := JUndefined;
               rows := ∅; cells := ∅; merges := [] |} in
  (array_set id ws wb, (id, ws)).

(** The names of the worksheets of a workbook. *)
Definition sheet_names (wb : workbook) : list string :=
  omap (fmap name) wb.

End Excel.
Import Excel.

(** ** The file system

    What [fs] and the workbook reader and writer see: a path holds a
    directory, a text file or a workbook file.  A workbook file holds the
    workbook that was written to it. *)

Inductive node :=
| Directory
| TextFile (raw : string)
| XlsxFile (wb : workbook).

Abbreviation filesystem := (gmap string node).

(** A run of the program: it may change the file system and ends with a
    value or a [throw]. *)
Definition io (A : Type) : Type := filesystem → filesystem * result A.

#[global] Instance io_ret : MRet io := λ A a fs, (fs, Ok a).

#[global] Instance io_bind : MBind io := λ A B k m fs,
  match m fs with
  | (fs', Ok a) => k a fs'
  | (fs', Throw e) => (fs', Throw e)
  end.

Definition throw {A} (e : exn) : io A := λ fs, (fs, Throw e).

Definition lift {A} (r : result A) : io A := λ fs, (fs, r).

Definition quote : string := String (ascii_of_nat 34) "".

(** ** Sample inputs

    An installation of the program with its files, to run the embedding
    on. *)

Module Sample.

Definition dirname : string := "/srv/anweb/backend".
Definition join (a b : string) : string := a +:+ "/" +:+ b.
Definition resolve (p : string) : string := p.

(** The two documents the sample data files hold. *)
Definition parse (raw : string) : option jsval :=
  if bool_decide (raw = "[{},{}]") then Some (JArr [JObj ∅; JObj ∅])
  else if bool_decide (raw = "{}") then Some (JObj ∅)
  else None.

Definition text_of (wb : workbook) : string := "PK".

(** The model setter of ExcelJS 4, which refuses the name of the source
    sheet, and one that takes the model. *)
Definition refusing (src ws : worksheet) : bool := true.

Definition record (fields : list (string * jsval)) : jsval :=
  JObj (list_to_map fields).

(** A worksheet with a title in A1 and the given merged ranges. *)
Definition sheet_with (n : string) (ranges : list string) : worksheet :=
  {| name := n; properties := JObj ∅; pageSetup := JObj ∅; views := JArr [];
     pageMargins := JUndefined; headerFooter := JObj ∅; columns := JUndefined;
     rows := ∅;
     cells := {[ (1, 1) := {| value := JStr "Form"; style := JObj ∅ |} ]};
     merges := ranges |}.

Definition data_fs (raw : string) : filesystem :=
  {[ join dirname "data2.json" := TextFile raw ]}.

Definition template_all (ranges : list string) : workbook :=
  [None; Some (sheet_with "form" ranges)].

Definition cloner_fs (ranges : list string) : filesystem :=
  {[ join dirname "template-all.xlsx" := XlsxFile (template_all ranges) ]}.

Definition template3 (ranges : list string) : workbook :=
  [None; Some (sheet_with "data" ranges)].

Definition filler_fs (ranges : list string) : filesystem :=
  {[ join dirname "template3.xlsx" := XlsxFile (template3 ranges) ]}.

Definition two_names : list jsval :=
  [record [("name", JStr "A")]; record [("name", JStr "B")]].

Definition entry_AB : jsval := record [("name", JStr "A"); ("year", JStr "B")].










(** The two records of [two_names] as the loader would return them. *)
Definition two_coded : list jsval :=
  [record [("name", JStr "A"); ("classcode", JNum 18)];
   record [("name", JStr "B"); ("classcode", JNum 18)]].






End Sample.

(** ** app.js *)

Section App.

Set Default Proof Using "Type".

(** Node and the library give these; the program does not depend on what
    they are.  [JSON_parse] is [None] where [JSON.parse] throws;
    [xlsx_text wb] is what reading a workbook file as text gives.
    [model_setter_throws src ws]: whether assigning the model of [src] to
    [ws.model] throws, which later ExcelJS versions do when the name in the
    model is taken in the workbook; the program wraps the assignment in
    [try]. *)
Variable __dirname : string.
Variable path_join : string → string → string.
Variable path_resolve : string → string.
Variable JSON_parse : string → option jsval.
Variable xlsx_text : workbook → string.
Variable model_setter_throws : worksheet → worksheet → bool.

(** [fs.existsSync(p)] *)
Definition existsSync (p : string) : io bool :=
  λ fs, (fs, Ok (bool_decide (is_Some (fs !! p)))).

(** [fs.mkdirSync(p, { recursive: true })] *)
Definition mkdirSync (p : string) : io () :=
  λ fs, (<[p := Directory]> fs, Ok ()).

(** [fs.readFileSync(p, 'utf8')] *)
Definition readFileSync (p : string) : io string :=
  λ fs, (fs, match fs !! p with
             | Some (TextFile raw) => Ok raw
             | Some (XlsxFile wb) => Ok (xlsx_text wb)
             | Some Directory => Throw (SystemError "EISDIR")
             | None => Throw (SystemError "ENOENT")
             end).

(** [workbook.xlsx.readFile(p)] *)
Definition xlsx_readFile (p : string) : io workbook :=
  λ fs, (fs, match fs !! p with
             | Some (XlsxFile wb) => Ok wb
             | Some (TextFile _) => Throw (Error "not a workbook file")
             | Some Directory => Throw (SystemError "EISDIR")
             | None => Throw (SystemError "ENOENT")
             end).

(** [workbook.xlsx.writeFile(p)] *)
Definition xlsx_writeFile (p : string) (wb : workbook) : io () :=
  λ fs, match fs !! p with
        | Some Directory => (fs, Throw (SystemError "EISDIR"))
        | _ => (<[p := XlsxFile wb]> fs, Ok ())
        end.

(** [sheet.getCell(address)] by an address string. *)
Definition cell_at (address : string) : result addr :=
  match decodeAddress address with
  | Some a => Ok a
  | None => Throw (Error ("Invalid Address: " +:+ address))
  end.

(** <<
function setCellValueKeepingMerge(sheet, address, value) {
	const cell = sheet.getCell(address);
	const target = cell.master || cell;
	target.value = value;
}
>> [cell.master] is always a cell, so [||] takes its left side. *)
Definition setCellValueKeepingMerge
    (address : string) (value : jsval) (sheet : worksheet) : result worksheet :=
  cell ← cell_at address;
  let target := master sheet cell in
  Ok (set_value target value sheet).

(** [setCellValueKeepingMerge(sheet, address, obj.field ?? '')] *)
Definition fill_field (address : string) (obj : jsval) (field : string)
    (sheet : worksheet) : result worksheet :=
  v ← get obj field;
  setCellValueKeepingMerge address (nullish v (JStr "")) sheet.

(** Lines 32 to 37. *)
Definition fill_entry (entry : jsval) (sheet : worksheet) : result worksheet :=
  sheet ← fill_field "C1" entry "name" sheet;
  sheet ← fill_field "C2" entry "year" sheet;
  sheet ← fill_field "C3" entry "school" sheet;
  sheet ← fill_field "C4" entry "address" sheet;
  sheet ← fill_field "C5" entry "address2" sheet;
  fill_field "C6" entry "classcode" sheet.

(** The template filler, lines 12 to 42. *)
Definition fillDataToTemplate (entry : jsval) (outFilename : string) : io string :=
  let rootDir := __dirname in
  let templatePath := path_join rootDir "template3.xlsx" in
  let outDir := path_join rootDir "out" in
  found ← existsSync templatePath;
  if negb found then throw (Error ("Template not found: " +:+ templatePath)) else
  has_out ← existsSync outDir;
  _ ← (if negb has_out then mkdirSync outDir else mret ());
  workbook ← xlsx_readFile templatePath;
  match getWorksheet "data" workbook with
  | None =>
      throw (Error ("Worksheet " +:+ quote +:+ "data" +:+ quote +:+
                    " not found in template"))
  | Some (id, sheet) =>
      sheet ← lift (fill_entry entry sheet);
      let workbook := <[id := Some sheet]> workbook in
      let outPath := path_join outDir outFilename in
      _ ← xlsx_writeFile outPath workbook;
      mret outPath
  end.

(** [sheet.getCell(address).value = obj.field ?? ''] *)
Definition assign_field (address : string) (obj : jsval) (field : string)
    (sheet : worksheet) : result worksheet :=
  cell ← cell_at address;
  v ← get obj field;
  Ok (set_value cell (nullish v (JStr "")) sheet).

(** Lines 440 to 445 of the earlier variant. *)
Definition fill_entry_earlier (entry : jsval) (sheet : worksheet) : result worksheet :=
  sheet ← assign_field "C1" entry "name" sheet;
  sheet ← assign_field "C2" entry "year" sheet;
  sheet ← assign_field "C3" entry "school" sheet;
  sheet ← assign_field "C4" entry "address" sheet;
  sheet ← assign_field "C5" entry "address2" sheet;
  assign_field "C6" entry "classcode" sheet.

(** The earlier variant of the template filler, lines 420 to 450. *)
Definition fillDataToTemplate_earlier (entry : jsval) (outFilename : string) : io string :=
  let rootDir := __dirname in
  let templatePath := path_join rootDir "template3.xlsx" in
  let outDir := path_join rootDir "out" in
  found ← existsSync templatePath;
  if negb found then throw (Error ("Template not found: " +:+ templatePath)) else
  has_out ← existsSync outDir;
  _ ← (if negb has_out then mkdirSync outDir else mret ());
  workbook ← xlsx_readFile templatePath;
  match getWorksheet "data" workbook with
  | None =>
      throw (Error ("Worksheet " +:+ quote +:+ "data" +:+ quote +:+
                    " not found in template"))
  | Some (id, sheet) =>
      sheet ← lift (fill_entry_earlier entry sheet);
      let workbook := <[id := Some sheet]> workbook in
      let outPath := path_join outDir outFilename in
      _ ← xlsx_writeFile outPath workbook;
      mret outPath
  end.

(** [18 + Math.floor(idx / 20)] *)
Definition classcode (idx : nat) : Z := 18 + Z.of_nat idx / 20.

(** The path the loader reads: [dataPath] when it is given and not the empty
    string. *)
Definition data_file (dataPath : option string) : string :=
  match dataPath with
  | Some p => if truthy (JStr p) then path_resolve p
              else path_join __dirname "data2.json"
  | None => path_join __dirname "data2.json"
  end.

(** The record loader, lines 50 to 60. *)
Definition readDataWithClasscodes (dataPath : option string) : io (list jsval) :=
  let file := data_file dataPath in
  found ← existsSync file;
  if negb found then throw (Error ("Data file not found: " +:+ file)) else
  raw ← readFileSync file;
  match JSON_parse raw with
  | None => throw SyntaxError
  | Some arr =>
      match arr with
      | JArr items =>
          mret (imap (λ idx item, spread_with item "classcode" (JNum (classcode idx))) items)
      | _ => throw (Error "Data file does not contain an array")
      end
  end.

(** [getMergeRanges(sheet)], lines 85 to 102: the set it collects is not
    used, the result is [Array.from(sheet.model.merges)]. *)
Definition getMergeRanges (sheet : worksheet) : list jsval :=
  JStr <$> merges sheet.

(** One round of the loops of lines 200 to 204 and 226 to 232:
<<
if (typeof range === 'string' && range.includes(':')) {
	try { newSheet.mergeCells(range); } catch (e) { /* ignore individual failures */ }
}
>> *)
Definition merge_step (newSheet : worksheet) (range : jsval) : worksheet :=
  match range with
  | JStr r =>
      if includes_colon r then
        match mergeCells r newSheet with
        | Ok merged => merged
        | Throw _ => newSheet
        end
      else newSheet
  | _ => newSheet
  end.

Definition applyMerges (mergeRanges : list jsval) (newSheet : worksheet) : worksheet :=
  foldl merge_step newSheet mergeRanges.

(** [col && col.k] *)
Definition and_get (col : jsval) (k : string) : jsval :=
  if truthy col then default JUndefined (own_props col !! k) else col.

(** The callback of [formSheet.columns.map], lines 141 to 154. *)
Definition copy_column (col : jsval) : jsval :=
  let copy : gmap string jsval :=
    list_to_map [("key", and_get col "key"); ("header", and_get col "header");
                 ("width", and_get col "width");
                 ("outlineLevel", and_get col "outlineLevel");
                 ("hidden", and_get col "hidden")] in
  let st := and_get col "style" in
  if truthy st && has_keys st then JObj (<["style" := deep_copy st]> copy)
  else JObj copy.

Definition with_columns (cols : jsval) (ws : worksheet) : worksheet :=
  {| name := name ws; properties := properties ws; pageSetup := pageSetup ws;
     views := views ws; pageMargins := pageMargins ws;
     headerFooter := headerFooter ws; columns := cols; rows := rows ws;
     cells := cells ws; merges := merges ws |}.

Definition copy_columns (formSheet newSheet : worksheet) : worksheet :=
  match columns formSheet with
  | JArr cols => with_columns (JArr (copy_column <$> cols)) newSheet
  | _ => newSheet
  end.

(** The callback of [row.eachCell], lines 165 to 194.  The deep copy of a
    style cannot throw, so the [catch] of lines 180 to 187 is not reached. *)
Definition copy_cell (formSheet : worksheet) (newSheet : worksheet) (a : addr)
  : worksheet :=
  let cell := getCell formSheet a in
  let sourceMaster := master formSheet a in
  if bool_decide (sourceMaster ≠ a) then newSheet else
  let targetCell := a in
  let newSheet := set_value targetCell (value cell) newSheet in
  let newSheet :=
    if truthy (style cell) && has_keys (style cell)
    then set_style targetCell (deep_copy (style cell)) newSheet
    else newSheet in
  if is_formula (value cell) && truthy (value cell) &&
     truthy (default JUndefined (own_props (value cell) !! "formula"))
  then set_value targetCell
         (JObj (list_to_map
                  [("formula", default JUndefined (own_props (value cell) !! "formula"));
                   ("result", default JUndefined (own_props (value cell) !! "result"))]))
         newSheet
  else newSheet.

(** The height, outline level and hidden flag of a row, lines 159 to 163. *)
Definition copy_row_props (row : row_props) (targetRow : row_props) : row_props :=
  {| height := if truthy (height row) then height row else height targetRow;
     outlineLevel := if truthy (outlineLevel row) then outlineLevel row
                     else outlineLevel targetRow;
     hidden := if truthy (hidden row) then hidden row else hidden targetRow |}.

(** The callback of [formSheet.eachRow], lines 158 to 196.  [commit] does
    nothing on a worksheet that is held in memory. *)
Definition copy_row (formSheet : worksheet) (newSheet : worksheet) (rowNumber : nat)
  : worksheet :=
  let row := getRow formSheet rowNumber in
  let targetRow := getRow newSheet rowNumber in
  let newSheet :=
    with_rows (<[rowNumber := copy_row_props row targetRow]> (rows newSheet)) newSheet in
  foldl (λ sheet c, copy_cell formSheet sheet (rowNumber, c)) newSheet
        (seq 1 (cellCount formSheet rowNumber)).

Definition copy_rows (formSheet newSheet : worksheet) : worksheet :=
  foldl (copy_row formSheet) newSheet (seq 1 (rowCount formSheet)).

(** Lines 124 to 137: the model of the source sheet is assigned to the new
    sheet and the name put back; when the assignment throws the sheet stays
    as it is.  [_merges] of a worksheet is a plain object, without
    [entries], so lines 132 to 134 do nothing. *)
Definition clone_model (formSheet : worksheet) (sheetName : string)
    (newSheet : worksheet) : worksheet :=
  if model_setter_throws formSheet newSheet then newSheet
  else with_name sheetName (set_model formSheet newSheet).

Definition with_settings (props margins hf : jsval) (ws : worksheet) : worksheet :=
  {| name := name ws; properties := props; pageSetup := pageSetup ws;
     views := views ws; pageMargins := margins; headerFooter := hf;
     columns := columns ws; rows := rows ws; cells := cells ws;
     merges := merges ws |}.

(** Lines 210 to 212. *)
Definition copy_settings (formSheet newSheet : worksheet) : worksheet :=
  let margins := if truthy (pageMargins formSheet)
                 then deep_copy (pageMargins formSheet) else pageMargins newSheet in
  let hf := if truthy (headerFooter formSheet)
            then deep_copy (headerFooter formSheet) else headerFooter newSheet in
  let tabColor := and_get (properties formSheet) "tabColor" in
  let props :=
    if truthy tabColor
    then JObj (<["tabColor" := deep_copy tabColor]>
                 (own_props (or_else (properties newSheet) (JObj ∅))))
    else properties newSheet in
  with_settings props margins hf newSheet.

(** The fixed label of line 220, in UTF-8. *)
Definition label : string := "Mã lớp: 18".

(** Lines 215 to 220. *)
Definition fill_item (item : jsval) (newSheet : worksheet) : result worksheet :=
  newSheet ← fill_field "C6" item "name" newSheet;
  year ← get item "year";
  year_or_name2 ← (match year with
                   | JUndefined | JNull => get item "name2"
                   | _ => Ok year
                   end);
  newSheet ← setCellValueKeepingMerge "C7" (nullish year_or_name2 (JStr "")) newSheet;
  newSheet ← fill_field "C8" item "school" newSheet;
  newSheet ← fill_field "C9" item "address" newSheet;
  newSheet ← fill_field "C10" item "address2" newSheet;
  setCellValueKeepingMerge "F6" (JStr label) newSheet.

Definition sheet_name (i : nat) : string := "STT-" +:+ String_of_index i.

(** What the body of the loop does to the new sheet, lines 123 to 235. *)
Definition fill_copy (formSheet : worksheet) (mergeRanges : list jsval)
    (sheetName : string) (item : jsval) (newSheet : worksheet) : result worksheet :=
  let newSheet := clone_model formSheet sheetName newSheet in
  let newSheet := copy_columns formSheet newSheet in
  let newSheet := copy_rows formSheet newSheet in
  let newSheet := applyMerges mergeRanges newSheet in
  let newSheet := copy_settings formSheet newSheet in
  newSheet ← fill_item item newSheet;
  Ok (applyMerges mergeRanges newSheet).

(** The body of the loop, lines 109 to 235, at index [i]. *)
Definition copy_item (formSheet : worksheet) (mergeRanges : list jsval)
    (i : nat) (elem : jsval) (workbook : Excel.workbook)
  : result Excel.workbook :=
  let item := or_else elem (JObj ∅) in
  let sheetName := sheet_name i in
  let workbook :=
    match getWorksheet sheetName workbook with
    | Some (id, _) => removeWorksheet id workbook
    | None => workbook
    end in
  let '(workbook, (id, newSheet)) :=
    addWorksheet sheetName (or_else (properties formSheet) (JObj ∅))
      (or_else (pageSetup formSheet) (JObj ∅))
      (or_else (views formSheet) (JArr [])) workbook in
  newSheet ← fill_copy formSheet mergeRanges sheetName item newSheet;
  Ok (<[id := Some newSheet]> workbook).

(** [for (let i = 0; i < dataArray.length; i++)], from index [i] on. *)
Fixpoint copy_items (formSheet : worksheet) (mergeRanges : list jsval)
    (i : nat) (dataArray : list jsval) (workbook : Excel.workbook)
  : result Excel.workbook :=
  match dataArray with
  | [] => Ok workbook
  | elem :: rest =>
      workbook ← copy_item formSheet mergeRanges i elem workbook;
      copy_items formSheet mergeRanges (S i) rest workbook
  end.

(** [opts.k || fallback], which has to be a string where it is used. *)
Definition option_or (opts : jsval) (k fallback : string) : result string :=
  v ← get opts k;
  match or_else v (JStr fallback) with
  | JStr s => Ok s
  | _ => Throw TypeError
  end.

(** The sheet cloner, lines 67 to 241.  [outFilename] and [opts] are given
    after their defaults are applied. *)
Definition createCopiesFromTemplateAll
    (dataArray : list jsval) (outFilename : string) (opts : jsval) : io string :=
  let rootDir := __dirname in
  templateFile ← lift (option_or opts "templateFile" "template-all.xlsx");
  formSheetName ← lift (option_or opts "formSheetName" "form");
  let templatePath := path_join rootDir templateFile in
  let outDir := path_join rootDir "out" in
  found ← existsSync templatePath;
  if negb found then throw (Error ("Template not found: " +:+ templatePath)) else
  has_out ← existsSync outDir;
  _ ← (if negb has_out then mkdirSync outDir else mret ());
  workbook ← xlsx_readFile templatePath;
  match getWorksheet formSheetName workbook with
  | None =>
      throw (Error ("Worksheet " +:+ quote +:+ formSheetName +:+ quote +:+
                    " not found in " +:+ templateFile))
  | Some (_, formSheet) =>
      let mergeRanges := getMergeRanges formSheet in
      workbook ← lift (copy_items formSheet mergeRanges 0 dataArray workbook);
      let outPath := path_join outDir outFilename in
      _ ← xlsx_writeFile outPath workbook;
      mret outPath
  end.

(** *** The single-sheet copier *)

(** [Object.keys(a)] of an array: its indices, as strings. *)
Definition Object_keys {A} (a : list A) : list jsval :=
  (λ i, JStr (String_of_index i)) <$> seq 0 (length a).

(** Lines 291 to 296 of [copyFormSheetToFile]:
<<
let mergeRanges = [];
if (formSheet.model && formSheet.model.merges) {
	mergeRanges = Object.keys(formSheet.model.merges || {});
} else if (formSheet._merges && typeof formSheet._merges.keys === 'function') {
	for (const k of formSheet._merges.keys()) mergeRanges.push(k);
}
>> [model.merges] is an array, which is truthy also when it is empty, so
    the first branch is taken; the keys of an array are its indices. *)
Definition gather_merge_keys (formSheet : worksheet) : list jsval :=
  Object_keys (merges formSheet).

(** What [copyFormSheetToFile] does to the new sheet, lines 275 to 364. *)
Definition copy_form (formSheet : worksheet) (newSheet : worksheet) : worksheet :=
  let newSheet := copy_columns formSheet newSheet in
  let mergeRanges := gather_merge_keys formSheet in
  let newSheet := copy_rows formSheet newSheet in
  let newSheet := applyMerges mergeRanges newSheet in
  let newSheet := copy_settings formSheet newSheet in
  applyMerges mergeRanges newSheet.


(** *** The command lines *)

(** How a run from the command line ends: with the path it saved, printed
    to the standard output, and exit status 0; or with a message or an error
    on the standard error and [process.exit(1)]. *)
Inductive report :=
| Saved (path : string)
| NoRecords (message : string)
| Failed (err : exn).


(** [a.slice(start, end)] for indices that are not negative. *)
Definition slice {A} (start end_ : nat) (a : list A) : list A :=
  take (end_ - start) (drop start a).

(** The command line of the current file, lines 388 to 408. *)
Definition main : filesystem → filesystem * report := λ fs,
  match readDataWithClasscodes None fs with
  | (fs, Throw err) => (fs, Failed err)
  | (fs, Ok data) =>
      if bool_decide (length data = 0)
      then (fs, NoRecords "No records found in data2.json")
      else
        let _23 := slice 100 119 data in
        let outName := "template-all-filled_23.xlsx" in
        match createCopiesFromTemplateAll _23 outName (JObj ∅) fs with
        | (fs, Ok saved) => (fs, Saved saved)
        | (fs, Throw err) => (fs, Failed err)
        end
  end.




(** ** The vocabulary of the properties *)

(** *** Well-formed worksheets and workbooks

    What ExcelJS maintains for every worksheet it holds: [mergeCells] refuses
    a range that meets a merged one, so the merged ranges of a worksheet are
    disjoint.  In a workbook the names of the worksheets differ. *)

Definition normal (d : rect) : Prop :=
  r_top d ≤ r_bottom d ∧ r_left d ≤ r_right d.

Fixpoint pairwise_disjoint (l : list rect) : bool :=
  match l with
  | [] => true
  | d :: l' => forallb (λ e, negb (intersects d e)) l' && pairwise_disjoint l'
  end.

Definition wf_sheet (ws : worksheet) : Prop :=
  pairwise_disjoint (merge_rects ws) = true.


(** Every worksheet of the workbook has disjoint merged ranges. *)
Definition wf_sheets (wb : workbook) : Prop :=
  ∀ id ws, wb !! id = Some (Some ws) → wf_sheet ws.

(** *** Records, cells and runs *)

(** The class code a loaded record carries. *)
Definition classcode_of (record : jsval) : option Z :=
  match own_props record !! "classcode" with
  | Some (JNum n) => Some n
  | _ => None
  end.

(** A sheet [s] keeps the masters of [formSheet]: a cell that is its own
    master in [formSheet] is its own master in [s]. *)
Definition agrees (formSheet s : worksheet) : Prop :=
  ∀ a, master formSheet a = a → master s a = a.

(** What the cell-copy loop leaves as the value of a cell it copies. *)
Definition copied_value (v : jsval) : jsval :=
  if is_formula v && truthy v &&
     truthy (default JUndefined (own_props v !! "formula"))
  then JObj (list_to_map
               [("formula", default JUndefined (own_props v !! "formula"));
                ("result", default JUndefined (own_props v !! "result"))])
  else v.

(** The file system once the output directory is there. *)
Definition with_out_dir (fs : filesystem) : filesystem :=
  if bool_decide (is_Some (fs !! path_join __dirname "out")) then fs
  else <[path_join __dirname "out" := Directory]> fs.

(** How the filler and the cloner start: the template has to be there, the
    output directory is made when it is not there, the template is read. *)
Definition open_template {A} (templateFile : string) (body : workbook → io A) : io A :=
  found ← existsSync (path_join __dirname templateFile);
  if negb found
  then throw (Error ("Template not found: " +:+ path_join __dirname templateFile))
  else
    has_out ← existsSync (path_join __dirname "out");
    _ ← (if negb has_out then mkdirSync (path_join __dirname "out") else mret ());
    workbook ← xlsx_readFile (path_join __dirname templateFile);
    body workbook.

(** How they end: the workbook is written under the output directory. *)
Definition save_as (outFilename : string) (wb : workbook) : io string :=
  _ ← xlsx_writeFile (path_join (path_join __dirname "out") outFilename) wb;
  mret (path_join (path_join __dirname "out") outFilename).


(** The worksheet [addWorksheet] makes in the loop of the cloner. *)
Definition blank_sheet (formSheet : worksheet) (sheetName : string) : worksheet :=
  {| name := sheetName;
     properties := JObj (own_props (or_else (properties formSheet) (JObj ∅))
                         ∪ defaultProperties);
     pageSetup := JObj (own_props (or_else (pageSetup formSheet) (JObj ∅)));
     views := or_else (views formSheet) (JArr []);
     pageMargins := JUndefined; headerFooter := JObj ∅; columns := JUndefined;
     rows := ∅; cells := ∅; merges := [] |}.

(** The copy the loop makes of the source sheet for the element at index
    [i] of the data. *)
Definition clone_of (formSheet : worksheet) (mergeRanges : list jsval)
    (i : nat) (elem : jsval) : result worksheet :=
  fill_copy formSheet mergeRanges (sheet_name i) (or_else elem (JObj ∅))
    (blank_sheet formSheet (sheet_name i)).

(** The workbook without its worksheet of a name. *)
Definition without (n : string) (wb : workbook) : workbook :=
  match getWorksheet n wb with
  | Some (id, _) => removeWorksheet id wb
  | None => wb
  end.


(** The new sheet when the loop comes to fill in the element, after lines
    123 to 212. *)
Definition prepared (formSheet : worksheet) (mergeRanges : list jsval)
    (sheetName : string) (newSheet : worksheet) : worksheet :=
  copy_settings formSheet
    (applyMerges mergeRanges
       (copy_rows formSheet
          (copy_columns formSheet (clone_model formSheet sheetName newSheet)))).

(** [item.k ?? ''] *)
Definition field_value (item : jsval) (k : string) : jsval :=
  nullish (default JUndefined (own_props item !! k)) (JStr "").

(** [item.year ?? item.name2 ?? ''] *)
Definition year_value (item : jsval) : jsval :=
  nullish (nullish (default JUndefined (own_props item !! "year"))
                   (default JUndefined (own_props item !! "name2")))
          (JStr "").

(** The six addresses the cloner fills, in the order it fills them, and the
    six the template filler fills. *)
Definition C6 : addr := (6, 3).
Definition C7 : addr := (7, 3).
Definition C8 : addr := (8, 3).
Definition C9 : addr := (9, 3).
Definition C10 : addr := (10, 3).
Definition F6 : addr := (6, 6).
Definition C1 : addr := (1, 3).
Definition C2 : addr := (2, 3).
Definition C3 : addr := (3, 3).
Definition C4 : addr := (4, 3).
Definition C5 : addr := (5, 3).







(** *** Writes in sequence *)







(** *** The fields the cloner reads *)

Definition cloner_fields : list string :=
  ["name"; "year"; "name2"; "school"; "address"; "address2"].

(** Two elements of a data array with the same values under the fields the
    cloner reads, once [|| {}] is applied to them. *)
Definition same_fields (elem elem' : jsval) : Prop :=
  ∀ k, k ∈ cloner_fields →
    own_props (or_else elem (JObj ∅)) !! k = own_props (or_else elem' (JObj ∅)) !! k.


(** *** What a copy carries over *)




(** *** Names of worksheets and printed values

    What ExcelJS 4 asks of the name of a new worksheet: it is not empty and
    not "History", has at most 31 characters, none of them one of
    [* ? : \ / [ ]], and no apostrophe at either end; and no worksheet of the
    workbook has the name, whatever the case of its letters.  [addWorksheet]
    takes such a name as it is.  (Letters are compared as ASCII.) *)












(** ** Properties *)

(** *** The record loader *)

Lemma classcode_mono (i j : nat) : i ≤ j → (classcode i ≤ classcode j)%Z.
Proof.
  intros Hij. unfold classcode.
  apply Z.add_le_mono_l, Z.div_le_mono; lia.
Qed.

Lemma classcode_block (i j : nat) : i / 20 = j / 20 → classcode i = classcode j.
Proof.
  intros Hij. unfold classcode.
  rewrite <- !(Nat2Z.inj_div _ 20). by rewrite Hij.
Qed.

Lemma readData_array (dataPath : option string) (fs : filesystem) raw items :
  readFileSync (data_file dataPath) fs = (fs, Ok raw) →
  JSON_parse raw = Some (JArr items) →
  readDataWithClasscodes dataPath fs =
    (fs, Ok (imap (λ idx item, spread_with item "classcode" (JNum (classcode idx))) items)).
Proof.
  intros Hread Hparse.
  unfold readDataWithClasscodes, mbind, io_bind, existsSync.
  assert (is_Some (fs !! data_file dataPath)) as Hsome.
  { unfold readFileSync in Hread.
    destruct (fs !! data_file dataPath) as [n|]; [by eexists|].
    by inversion Hread. }
  rewrite bool_decide_eq_true_2 by done. simpl.
  unfold readFileSync in Hread. injection Hread as Hread.
  rewrite Hread, Hparse. done.
Qed.

(** C4: in the list the loader returns for an array of length L, the record
    at every index i below L has classcode 18 + floor(i / 20); the classcode
    does not decrease along the list and is the same within a block of 20
    indices. *)
Theorem readDataWithClasscodes_classcode
    (dataPath : option string) (fs : filesystem) (raw : string) (items : list jsval) :
  readFileSync (data_file dataPath) fs = (fs, Ok raw) →
  JSON_parse raw = Some (JArr items) →
  ∃ records,
    readDataWithClasscodes dataPath fs = (fs, Ok records) ∧
    length records = length items ∧
    (∀ i, i < length items →
       ∃ r, records !! i = Some r ∧
            classcode_of r = Some (18 + Z.of_nat i / 20)%Z ∧
            get r "classcode" = Ok (JNum (18 + Z.of_nat (i / 20)))) ∧
    (∀ i j ri rj, i ≤ j → records !! i = Some ri → records !! j = Some rj →
       ∃ ci cj, classcode_of ri = Some ci ∧ classcode_of rj = Some cj ∧ (ci ≤ cj)%Z) ∧
    (∀ i j ri rj, i / 20 = j / 20 →
       records !! i = Some ri → records !! j = Some rj →
       classcode_of ri = classcode_of rj).
Proof.
  intros Hread Hparse. eexists. split; [by apply (readData_array _ _ raw)|].
  assert (∀ i r,
    imap (λ idx item, spread_with item "classcode" (JNum (classcode idx))) items !! i
      = Some r → classcode_of r = Some (classcode i)) as Hcode.
  { intros i r. rewrite list_lookup_imap.
    destruct (items !! i) as [item|]; [|done]. simpl. intros [= <-].
    unfold classcode_of, spread_with. simpl. by rewrite lookup_insert_eq. }
  split; [by rewrite length_imap|]. split; [|split].
  - intros i Hi. destruct (lookup_lt_is_Some_2 items i Hi) as [item Hitem].
    eexists. split; [by rewrite list_lookup_imap, Hitem|].
    rewrite Nat2Z.inj_div.
    unfold classcode_of, spread_with, get, classcode. simpl.
    by rewrite lookup_insert_eq.
  - intros i j ri rj Hij Hi Hj. exists (classcode i), (classcode j).
    split; [by apply Hcode|]. split; [by apply Hcode|]. by apply classcode_mono.
  - intros i j ri rj Hij Hi Hj.
    rewrite (Hcode _ _ Hi), (Hcode _ _ Hj). f_equal. by apply classcode_block.
Qed.

Lemma readData_absent (dataPath : option string) (fs : filesystem) :
  fs !! data_file dataPath = None →
  readDataWithClasscodes dataPath fs =
    (fs, Throw (Error ("Data file not found: " +:+ data_file dataPath))).
Proof.
  intros Hfile.
  unfold readDataWithClasscodes, mbind, io_bind, existsSync, throw.
  rewrite Hfile. rewrite bool_decide_eq_false_2 by (by intros [? ?]). done.
Qed.

Lemma readData_present (dataPath : option string) (fs : filesystem) (n : node) :
  fs !! data_file dataPath = Some n →
  readDataWithClasscodes dataPath fs =
    (fs, match (readFileSync (data_file dataPath) fs).2 with
         | Throw e => Throw e
         | Ok raw =>
             match JSON_parse raw with
             | None => Throw SyntaxError
             | Some (JArr items) =>
                 Ok (imap (λ idx item,
                       spread_with item "classcode" (JNum (classcode idx))) items)
             | Some _ => Throw (Error "Data file does not contain an array")
             end
         end).
Proof.
  intros Hfile.
  unfold readDataWithClasscodes, mbind, io_bind, existsSync, readFileSync, throw.
  rewrite Hfile. rewrite bool_decide_eq_true_2 by (by eexists). simpl.
  rewrite Hfile.
  destruct n as [|raw|wb]; simpl; try done.
  - destruct (JSON_parse raw) as [[]|]; done.
  - destruct (JSON_parse (xlsx_text wb)) as [[]|]; done.
Qed.

(** C6: the loader throws the not-found error exactly when nothing is at the
    path of the data file, and the not-an-array error exactly when the file
    is there, is read, and parses to a value that is not an array; a run that
    throws returns no records, and no run changes the file system. *)
Theorem readDataWithClasscodes_errors (dataPath : option string) (fs : filesystem) :
  let file := data_file dataPath in
  let run := readDataWithClasscodes dataPath fs in
  (run.2 = Throw (Error ("Data file not found: " +:+ file)) ↔ fs !! file = None) ∧
  (run.2 = Throw (Error "Data file does not contain an array") ↔
     is_Some (fs !! file) ∧
     ∃ raw v, (readFileSync file fs).2 = Ok raw ∧
              JSON_parse raw = Some v ∧ isArray v = false) ∧
  (∀ e, run.2 = Throw e → ∀ records, run.2 ≠ Ok records) ∧
  run.1 = fs.
Proof.
  intros file run. subst file run.
  assert (∀ p, "Data file does not contain an array"
               ≠ "Data file not found: " +:+ p) as Hmsg by (intros p; discriminate).
  destruct (fs !! data_file dataPath) as [n|] eqn:Hfile.
  - rewrite (readData_present _ _ _ Hfile).
    assert ((readFileSync (data_file dataPath) fs).2 ≠ Throw (Error
              ("Data file not found: " +:+ data_file dataPath)) ∧
            (readFileSync (data_file dataPath) fs).2 ≠ Throw (Error
              "Data file does not contain an array")) as [Hnf Hsh].
    { unfold readFileSync. cbn [snd]. rewrite Hfile. by destruct n. }
    remember ((readFileSync (data_file dataPath) fs).2) as rd eqn:Hrd.
    cbn [fst snd]. clear Hrd.
    destruct rd as [raw|e].
    + destruct (JSON_parse raw) as [v|] eqn:Hparse.
      * split; [|split; [|split]]; [split|split| |]; try done.
        -- destruct v; try done; intros [=]; by edestruct Hmsg.
        -- intros Hshape. split; [done|]. exists raw, v. by destruct v.
        -- intros (_ & raw' & v' & [= <-] & Hv & Harr).
           rewrite Hparse in Hv. injection Hv as <-. by destruct v.
        -- intros e He records. by rewrite He.
      * split; [|split; [|split]]; [split|split| |]; try done.
        -- intros (_ & raw' & v' & [= <-] & Hv & _). congruence.
    + split; [|split; [|split]]; [split|split| |]; try done.
      * intros [= ->]. by destruct Hnf.
      * intros [= ->]. by destruct Hsh.
      * intros (_ & raw' & v' & ? & _). done.
  - rewrite (readData_absent _ _ Hfile). cbn [fst snd].
    split; [|split; [|split]]; [split|split| |]; try done.
    by intros ([? ?] & _).
Qed.

(** C8: the loader returns one record per element of the array, in the
    order of the array; the record at an index has every property of the
    element at that index, with its value, and besides them only classcode. *)
Theorem readDataWithClasscodes_frame
    (dataPath : option string) (fs : filesystem) (raw : string) (items : list jsval) :
  readFileSync (data_file dataPath) fs = (fs, Ok raw) →
  JSON_parse raw = Some (JArr items) →
  ∃ records,
    readDataWithClasscodes dataPath fs = (fs, Ok records) ∧
    length records = length items ∧
    ∀ i item, items !! i = Some item →
      ∃ r, records !! i = Some r ∧
           (∀ k, k ≠ "classcode" → own_props r !! k = own_props item !! k) ∧
           (∀ k, is_Some (own_props r !! k) ↔
                 k = "classcode" ∨ is_Some (own_props item !! k)) ∧
           (∀ fields, item = JObj fields →
              r = JObj (<["classcode" := JNum (classcode i)]> fields)).
Proof.
  intros Hread Hparse. eexists. split; [by apply (readData_array _ _ raw)|].
  split; [by rewrite length_imap|].
  intros i item Hitem. eexists. split; [by rewrite list_lookup_imap, Hitem|].
  unfold spread_with. simpl. split; [|split].
  - intros k Hk. by rewrite lookup_insert_ne.
  - intros k. rewrite lookup_insert. case_decide as Hk.
    + split; [by left | by eexists].
    + split; [by right | by intros [? | ?]].
  - by intros fields ->.
Qed.

(** *** Merged ranges and masters *)

Lemma corners_normal (a b : addr) : normal (corners a b).
Proof. unfold normal, corners. simpl. lia. Qed.

Lemma decodeRange_normal (range : string) (d : rect) :
  decodeRange range = Some d → normal d.
Proof.
  unfold decodeRange. intros Hd.
  destruct (split_colon range) as [[tl br]|]; simpl in Hd; [|done].
  destruct (decodeAddress tl) as [a|]; simpl in Hd; [|done].
  destruct (decodeAddress br) as [b|]; simpl in Hd; [|done].
  injection Hd as <-. apply corners_normal.
Qed.

Lemma merge_rects_normal (ws : worksheet) (d : rect) :
  d ∈ merge_rects ws → normal d.
Proof.
  unfold merge_rects. rewrite list_elem_of_omap.
  intros (range & _ & Hd). by eapply decodeRange_normal.
Qed.

Lemma contains_top_left (d : rect) : normal d → contains d (top_left d) = true.
Proof.
  intros [Hr Hc]. unfold contains, top_left. simpl.
  rewrite !andb_true_iff, !Nat.leb_le. lia.
Qed.

Lemma contains_spec (d : rect) (a : addr) :
  contains d a = true ↔
  r_top d ≤ a.1 ≤ r_bottom d ∧ r_left d ≤ a.2 ≤ r_right d.
Proof. unfold contains. rewrite !andb_true_iff, !Nat.leb_le. lia. Qed.

Lemma intersects_spec (d e : rect) :
  intersects d e = true ↔
  r_top d ≤ r_bottom e ∧ r_top e ≤ r_bottom d ∧
  r_left d ≤ r_right e ∧ r_left e ≤ r_right d.
Proof.
  unfold intersects. rewrite negb_true_iff, !orb_false_iff, !Nat.ltb_ge. lia.
Qed.

Lemma contains_intersects (d e : rect) (a : addr) :
  contains d a = true → contains e a = true → intersects d e = true.
Proof. rewrite !contains_spec, intersects_spec. lia. Qed.

Lemma intersects_self (d : rect) : normal d → intersects d d = true.
Proof. intros [??]. rewrite intersects_spec. lia. Qed.

Lemma find_disjoint (l : list rect) (d : rect) (a : addr) :
  pairwise_disjoint l = true → d ∈ l → contains d a = true →
  find (λ e, contains e a) l = Some d.
Proof.
  induction l as [|e l IH]; intros Hdis Hin Ha; [by apply elem_of_nil in Hin|].
  simpl in Hdis. apply andb_true_iff in Hdis as [Hhead Htail].
  simpl. destruct (contains e a) eqn:He.
  - apply elem_of_cons in Hin as [->|Hin]; [done|].
    rewrite forallb_forall in Hhead.
    specialize (Hhead d (proj1 (list_elem_of_In _ _) Hin)).
    by rewrite (contains_intersects e d a) in Hhead.
  - apply elem_of_cons in Hin as [->|Hin]; [congruence|]. by apply IH.
Qed.

Lemma master_in (ws : worksheet) (d : rect) (a : addr) :
  wf_sheet ws → d ∈ merge_rects ws → contains d a = true →
  master ws a = top_left d.
Proof.
  intros Hwf Hin Ha. unfold master. by rewrite (find_disjoint _ d).
Qed.

Lemma master_cases (ws : worksheet) (a : addr) :
  (master ws a = a ∧ ∀ d, d ∈ merge_rects ws → contains d a = false) ∨
  (∃ d, d ∈ merge_rects ws ∧ contains d a = true ∧ master ws a = top_left d).
Proof.
  unfold master. destruct (find _ _) as [d|] eqn:Hfind.
  - right. apply find_some in Hfind as [Hin Ha].
    exists d. by rewrite list_elem_of_In.
  - left. split; [done|]. intros d Hin.
    apply (find_none _ _ Hfind). by apply list_elem_of_In.
Qed.

Lemma master_idem (ws : worksheet) (a : addr) :
  wf_sheet ws → master ws (master ws a) = master ws a.
Proof.
  intros Hwf. destruct (master_cases ws a) as [[Heq _]|(d & Hin & _ & Heq)].
  - by rewrite Heq.
  - rewrite Heq. apply master_in; [done..|].
    apply contains_top_left. by eapply merge_rects_normal.
Qed.

Lemma master_ext (ws ws' : worksheet) (a : addr) :
  merge_rects ws = merge_rects ws' → master ws a = master ws' a.
Proof. unfold master. by intros ->. Qed.

Lemma set_value_master (a b : addr) (v : jsval) (ws : worksheet) :
  master (set_value a v ws) b = master ws b.
Proof. done. Qed.

(** Reading after a write: the cells that share the master of the written
    cell show the new value, the others show what they showed. *)
Lemma cell_value_set_value (a b : addr) (v : jsval) (ws : worksheet) :
  cell_value (set_value a v ws) b =
    if decide (master ws a = master ws b) then v else cell_value ws b.
Proof.
  unfold cell_value, getCell. rewrite set_value_master. simpl.
  rewrite lookup_insert. by case_decide.
Qed.

(** The helper writes where the cell setter by itself writes. *)
Lemma setCellValueKeepingMerge_set_value
    (address : string) (a : addr) (v : jsval) (sheet : worksheet) :
  wf_sheet sheet → decodeAddress address = Some a →
  setCellValueKeepingMerge address v sheet = Ok (set_value a v sheet).
Proof.
  intros Hwf Ha. unfold setCellValueKeepingMerge, cell_at. rewrite Ha. simpl.
  unfold set_value. by rewrite !master_idem.
Qed.

(** *** The cell-copy loop *)

Lemma agrees_merges (formSheet s s' : worksheet) :
  merges s' = merges s → agrees formSheet s → agrees formSheet s'.
Proof.
  intros Hm Hs a Ha. transitivity (master s a); [|by apply Hs].
  apply master_ext. unfold merge_rects. by rewrite Hm.
Qed.

Lemma agrees_no_merges (formSheet s : worksheet) :
  merges s = [] → agrees formSheet s.
Proof. intros Hm a _. unfold master, merge_rects. by rewrite Hm. Qed.

Lemma agrees_same_merges (formSheet s : worksheet) :
  merges s = merges formSheet → agrees formSheet s.
Proof.
  intros Hm a Ha. transitivity (master formSheet a); [|done].
  apply master_ext. unfold merge_rects. by rewrite Hm.
Qed.

Lemma copy_cell_merges (formSheet s : worksheet) (a : addr) :
  merges (copy_cell formSheet s a) = merges s.
Proof. unfold copy_cell. repeat case_match; done. Qed.

Lemma set_style_master (a b : addr) (st : jsval) (ws : worksheet) :
  master (set_style a st ws) b = master ws b.
Proof. done. Qed.

Lemma set_value_other (a b : addr) (v : jsval) (ws : worksheet) :
  master ws a = a → b ≠ a →
  cells (set_value a v ws) !! b = cells ws !! b.
Proof.
  intros Ha Hb. unfold set_value. simpl. rewrite Ha. by rewrite lookup_insert_ne.
Qed.

Lemma set_style_other (a b : addr) (st : jsval) (ws : worksheet) :
  b ≠ a → cells (set_style a st ws) !! b = cells ws !! b.
Proof. intros Hb. unfold set_style. simpl. by rewrite lookup_insert_ne. Qed.

Lemma set_value_self (a : addr) (v : jsval) (ws : worksheet) :
  master ws a = a → value (getCell (set_value a v ws) a) = v.
Proof.
  intros Ha. unfold set_value, getCell. simpl. rewrite Ha.
  by rewrite lookup_insert_eq.
Qed.

Lemma set_style_value (a b : addr) (st : jsval) (ws : worksheet) :
  value (getCell (set_style a st ws) b) = value (getCell ws b).
Proof.
  unfold set_style, getCell. simpl. rewrite lookup_insert.
  case_decide; by subst.
Qed.

(** A round of the loop at [a] writes nowhere when [a] is not its own
    master in the source, and nowhere but at [a] when it is. *)
Lemma copy_cell_other (formSheet s : worksheet) (a b : addr) :
  agrees formSheet s → b ≠ a ∨ master formSheet a ≠ a →
  cells (copy_cell formSheet s a) !! b = cells s !! b.
Proof.
  intros Hs Hb. unfold copy_cell. case_bool_decide as Hm; [done|].
  assert (master formSheet a = a) as Ha
    by (by destruct (decide (master formSheet a = a))).
  assert (b ≠ a) as Hne by (by destruct Hb).
  assert (master s a = a) as Hsa by (by apply Hs).
  cbv zeta.
  destruct (truthy (style (getCell formSheet a)) && has_keys (style (getCell formSheet a)));
    destruct (is_formula (value (getCell formSheet a)) && truthy (value (getCell formSheet a))
              && truthy (default JUndefined (own_props (value (getCell formSheet a)) !! "formula")));
    repeat (first [rewrite set_value_other | rewrite set_style_other];
            [|by rewrite ?set_style_master, ?set_value_master..]);
    done.
Qed.

(** A round of the loop at a cell that is its own master in the source
    leaves the value of that cell, as the loop copies it, in the sheet. *)
Lemma copy_cell_self (formSheet s : worksheet) (a : addr) :
  agrees formSheet s → master formSheet a = a →
  value (getCell (copy_cell formSheet s a) a) = copied_value (value (getCell formSheet a)).
Proof.
  intros Hs Ha. unfold copy_cell, copied_value.
  rewrite bool_decide_eq_false_2 by (by intros ?).
  assert (master s a = a) as Hsa by (by apply Hs).
  cbv zeta.
  destruct (truthy (style (getCell formSheet a)) && has_keys (style (getCell formSheet a)));
    destruct (is_formula (value (getCell formSheet a)) && truthy (value (getCell formSheet a))
              && truthy (default JUndefined (own_props (value (getCell formSheet a)) !! "formula")));
    rewrite ?set_style_value, ?set_value_self;
    by rewrite ?set_style_master, ?set_value_master.
Qed.

Lemma copy_cells_merges (formSheet : worksheet) (r : nat) (cols : list nat) (s : worksheet) :
  merges (foldl (λ sheet c, copy_cell formSheet sheet (r, c)) s cols) = merges s.
Proof.
  revert s. induction cols as [|c cols IH]; intros s; [done|].
  simpl. by rewrite IH, copy_cell_merges.
Qed.

Lemma copy_cells_untouched (formSheet : worksheet) (r : nat) (cols : list nat)
    (s : worksheet) (b : addr) :
  agrees formSheet s →
  (∀ c, c ∈ cols → b ≠ (r, c) ∨ master formSheet (r, c) ≠ (r, c)) →
  cells (foldl (λ sheet c, copy_cell formSheet sheet (r, c)) s cols) !! b = cells s !! b.
Proof.
  revert s. induction cols as [|c cols IH]; intros s Hs Hb; [done|].
  simpl. rewrite IH.
  - apply copy_cell_other; [done|]. apply Hb. by left.
  - eapply agrees_merges; [apply copy_cell_merges|done].
  - intros c' Hc'. apply Hb. by right.
Qed.

Lemma copy_cells_self (formSheet : worksheet) (r c : nat) (cols : list nat) (s : worksheet) :
  agrees formSheet s → master formSheet (r, c) = (r, c) →
  c ∈ cols ∨ value (getCell s (r, c)) = copied_value (value (getCell formSheet (r, c))) →
  value (getCell (foldl (λ sheet c, copy_cell formSheet sheet (r, c)) s cols) (r, c))
    = copied_value (value (getCell formSheet (r, c))).
Proof.
  intros Hs Hm. revert s Hs.
  induction cols as [|c' cols IH]; intros s Hs Hc.
  - destruct Hc as [Hc|Hc]; [by apply elem_of_nil in Hc|done].
  - simpl. apply IH.
    + eapply agrees_merges; [apply copy_cell_merges|done].
    + destruct (decide (c' = c)) as [->|Hne].
      * right. by apply copy_cell_self.
      * destruct Hc as [Hc|Hc].
        -- apply elem_of_cons in Hc as [Hc|Hc]; [congruence|by left].
        -- right. unfold getCell. rewrite copy_cell_other; [done..|].
           left. congruence.
Qed.

Lemma copy_row_merges (formSheet s : worksheet) (r : nat) :
  merges (copy_row formSheet s r) = merges s.
Proof. unfold copy_row. by rewrite copy_cells_merges. Qed.

Lemma copy_row_untouched (formSheet s : worksheet) (r : nat) (b : addr) :
  agrees formSheet s → b.1 ≠ r ∨ master formSheet b ≠ b →
  cells (copy_row formSheet s r) !! b = cells s !! b.
Proof.
  intros Hs Hb. unfold copy_row. rewrite copy_cells_untouched; [done| |].
  - by eapply agrees_merges.
  - intros c _. destruct (decide (b = (r, c))) as [->|Hne]; [|by left].
    right. by destruct Hb.
Qed.

Lemma copy_row_self (formSheet s : worksheet) (r : nat) (b : addr) :
  agrees formSheet s → master formSheet b = b →
  (b.1 = r ∧ b.2 ∈ seq 1 (cellCount formSheet r)) ∨
    value (getCell s b) = copied_value (value (getCell formSheet b)) →
  value (getCell (copy_row formSheet s r) b) = copied_value (value (getCell formSheet b)).
Proof.
  intros Hs Hm Hb. destruct b as [br bc]. simpl in Hb.
  destruct (decide (br = r)) as [->|Hne].
  - unfold copy_row. apply copy_cells_self; [by eapply agrees_merges|done|].
    destruct Hb as [[_ Hb]|Hb]; [by left|by right].
  - destruct Hb as [[? _]|Hb]; [done|].
    unfold getCell. rewrite copy_row_untouched; [done..|]. by left.
Qed.


(** The loop leaves alone every cell that is a member and not the master of
    a merged range of the source sheet. *)
Lemma copy_rows_untouched (formSheet s : worksheet) (b : addr) :
  agrees formSheet s → master formSheet b ≠ b →
  cells (copy_rows formSheet s) !! b = cells s !! b.
Proof.
  intros Hs Hb. unfold copy_rows. generalize (seq 1 (rowCount formSheet)).
  intros rs. revert s Hs. induction rs as [|r rs IH]; intros s Hs; [done|].
  simpl. rewrite IH.
  - apply copy_row_untouched; [done|by right].
  - eapply agrees_merges; [apply copy_row_merges|done].
Qed.

Lemma rowCount_bound (formSheet : worksheet) (b : addr) :
  is_Some (cells formSheet !! b) → b.1 ≤ rowCount formSheet.
Proof.
  intros [x Hx]. unfold rowCount. apply max_list_elem_of_le.
  apply elem_of_app. right.
  apply list_elem_of_fmap. exists b. split; [done|].
  apply list_elem_of_fmap. exists (b, x). split; [done|].
  by apply elem_of_map_to_list.
Qed.

Lemma cellCount_bound (formSheet : worksheet) (b : addr) :
  is_Some (cells formSheet !! b) → b.2 ≤ cellCount formSheet b.1.
Proof.
  intros [x Hx]. unfold cellCount. apply max_list_elem_of_le.
  apply list_elem_of_fmap. exists b. split; [done|].
  apply list_elem_of_filter. split; [done|].
  apply list_elem_of_fmap. exists (b, x). split; [done|].
  by apply elem_of_map_to_list.
Qed.

(** The loop copies every cell of the source sheet that is its own master:
    after it, the cell has the value the source cell has. *)
Lemma copy_rows_self (formSheet s : worksheet) (b : addr) :
  agrees formSheet s → master formSheet b = b →
  is_Some (cells formSheet !! b) → 1 ≤ b.1 → 1 ≤ b.2 →
  value (getCell (copy_rows formSheet s) b) = copied_value (value (getCell formSheet b)).
Proof.
  intros Hs Hm Hb Hr Hc.
  assert (b.1 ∈ seq 1 (rowCount formSheet)) as Hrow.
  { apply elem_of_seq. pose proof (rowCount_bound _ _ Hb). lia. }
  assert (b.2 ∈ seq 1 (cellCount formSheet b.1)) as Hcol.
  { apply elem_of_seq. pose proof (cellCount_bound _ _ Hb). lia. }
  unfold copy_rows. revert Hrow. generalize (seq 1 (rowCount formSheet)).
  intros rs Hrow.
  assert (b.1 ∈ rs ∨
          value (getCell s b) = copied_value (value (getCell formSheet b))) as Hor
    by (by left).
  clear Hrow. revert s Hs Hor.
  induction rs as [|r rs IH]; intros s Hs Hor.
  - destruct Hor as [Hor|Hor]; [by apply elem_of_nil in Hor|done].
  - simpl. apply IH.
    + eapply agrees_merges; [apply copy_row_merges|done].
    + destruct (decide (b.1 = r)) as [<-|Hne].
      * right. apply copy_row_self; [done..|]. by left.
      * destruct Hor as [Hor|Hor].
        -- apply elem_of_cons in Hor as [Hor|Hor]; [done|by left].
        -- right. apply copy_row_self; [done..|]. by right.
Qed.

Lemma copy_columns_merges (formSheet s : worksheet) :
  merges (copy_columns formSheet s) = merges s.
Proof. unfold copy_columns. by case_match. Qed.

Lemma clone_model_merges (formSheet s : worksheet) (n : string) :
  merges s = [] →
  merges (clone_model formSheet n s) = [] ∨
  merges (clone_model formSheet n s) = merges formSheet.
Proof. intros Hs. unfold clone_model. case_match; [by left|by right]. Qed.

Lemma prepared_agrees (formSheet s : worksheet) (n : string) :
  merges s = [] →
  agrees formSheet (copy_columns formSheet (clone_model formSheet n s)).
Proof.
  intros Hs. eapply agrees_merges; [apply copy_columns_merges|].
  destruct (clone_model_merges formSheet s n Hs) as [Hm|Hm].
  - by apply agrees_no_merges.
  - by apply agrees_same_merges.
Qed.

(** C1: a value set with setCellValueKeepingMerge at an address goes to the
    master of the address, which is the top-left cell of the merged range
    the address lies in, and to no other cell; and the cell-copy loop of the
    sheet cloner copies the cells of the source sheet that are their own
    master and leaves alone, in the new sheet, the cells that are members of
    a merged range of the source sheet without being its master. *)
Theorem writes_resolve_to_master
    (sheet formSheet newSheet : worksheet) (address sheetName : string)
    (a : addr) (v : jsval) :
  wf_sheet sheet → decodeAddress address = Some a → merges newSheet = [] →
  (∃ sheet',
     setCellValueKeepingMerge address v sheet = Ok sheet' ∧
     (∀ d, d ∈ merge_rects sheet → contains d a = true →
           master sheet a = top_left d) ∧
     cells sheet' !! master sheet a =
       Some {| value := v; style := style (getCell sheet (master sheet a)) |} ∧
     (∀ b, b ≠ master sheet a → cells sheet' !! b = cells sheet !! b) ∧
     merges sheet' = merges sheet) ∧
  (let target := copy_columns formSheet (clone_model formSheet sheetName newSheet) in
   let copied := copy_rows formSheet target in
   (∀ b, master formSheet b ≠ b → cells copied !! b = cells target !! b) ∧
   (∀ b, master formSheet b = b → is_Some (cells formSheet !! b) →
         1 ≤ b.1 → 1 ≤ b.2 →
         value (getCell copied b) = copied_value (value (getCell formSheet b)))).
Proof.
  intros Hwf Ha Hnew. split.
  - exists (set_value a v sheet).
    split; [by apply setCellValueKeepingMerge_set_value|].
    split; [intros d Hd Hin; by apply master_in|].
    unfold set_value. simpl. split; [by rewrite lookup_insert_eq|].
    split; [|done]. intros b Hb. by rewrite lookup_insert_ne.
  - pose proof (prepared_agrees formSheet newSheet sheetName Hnew) as Hagree.
    simpl. split.
    + intros b Hb. by apply copy_rows_untouched.
    + intros b Hm Hb Hr Hc. by apply copy_rows_self.
Qed.

(** *** The two template fillers *)

Lemma fill_field_assign (address : string) (a : addr) (obj : jsval) (field : string)
    (sheet : worksheet) :
  wf_sheet sheet → decodeAddress address = Some a →
  fill_field address obj field sheet = assign_field address obj field sheet.
Proof.
  intros Hwf Ha. unfold fill_field, assign_field, cell_at. rewrite Ha. simpl.
  destruct (get obj field) as [v|e]; simpl; [|done].
  by apply setCellValueKeepingMerge_set_value.
Qed.

Lemma assign_field_merges (address : string) (obj : jsval) (field : string)
    (sheet sheet' : worksheet) :
  assign_field address obj field sheet = Ok sheet' → merges sheet' = merges sheet.
Proof.
  unfold assign_field. destruct (cell_at address) as [a|]; simpl; [|done].
  destruct (get obj field) as [v|]; simpl; [|done]. by intros [= <-].
Qed.

Lemma wf_sheet_merges (s s' : worksheet) :
  merges s' = merges s → wf_sheet s → wf_sheet s'.
Proof. unfold wf_sheet, merge_rects. by intros ->. Qed.

Lemma fill_entry_earlier_eq (entry : jsval) (sheet : worksheet) :
  wf_sheet sheet → fill_entry entry sheet = fill_entry_earlier entry sheet.
Proof.
  intros Hwf. unfold fill_entry, fill_entry_earlier.
  repeat lazymatch goal with
  | Hs : wf_sheet ?s |- context [fill_field ?ad entry ?f ?s] =>
      let a := eval vm_compute in (decodeAddress ad) in
      lazymatch a with
      | Some ?c =>
          rewrite (fill_field_assign ad c entry f s Hs eq_refl);
          let s' := fresh "s" in let Hs' := fresh "Hs" in let Heq := fresh "Heq" in
          destruct (assign_field ad entry f s) as [s'|] eqn:Heq; simpl; [|done];
          assert (wf_sheet s') as Hs'
            by (eapply wf_sheet_merges; [by eapply assign_field_merges|done]);
          clear Heq
      end
  end.
  done.
Qed.

Lemma open_template_run {A} (templateFile : string) (body : workbook → io A)
    (fs : filesystem) :
  open_template templateFile body fs =
    match fs !! path_join __dirname templateFile with
    | None =>
        (fs, Throw (Error ("Template not found: " +:+ path_join __dirname templateFile)))
    | Some Directory => (with_out_dir fs, Throw (SystemError "EISDIR"))
    | Some (TextFile _) => (with_out_dir fs, Throw (Error "not a workbook file"))
    | Some (XlsxFile wb) => body wb (with_out_dir fs)
    end.
Proof.
  unfold open_template, with_out_dir, mbind, io_bind, existsSync, throw.
  destruct (fs !! path_join __dirname templateFile) as [n|] eqn:Htpl.
  2: { by rewrite bool_decide_eq_false_2 by (by intros [??]). }
  rewrite bool_decide_eq_true_2 by (by eexists). cbn [negb].
  destruct (bool_decide (is_Some (fs !! path_join __dirname "out"))) eqn:Hout;
    cbn [negb].
  - unfold mret, io_ret, xlsx_readFile. rewrite Htpl. by destruct n.
  - apply bool_decide_eq_false_1 in Hout.
    unfold mkdirSync, xlsx_readFile. rewrite lookup_insert_ne.
    + rewrite Htpl. by destruct n.
    + intros Heq. apply Hout. rewrite Heq. by eexists.
Qed.


Lemma fillDataToTemplate_unfold (entry : jsval) (outFilename : string) :
  fillDataToTemplate entry outFilename =
    open_template "template3.xlsx" (λ workbook,
      match getWorksheet "data" workbook with
      | None =>
          throw (Error ("Worksheet " +:+ quote +:+ "data" +:+ quote +:+
                        " not found in template"))
      | Some (id, sheet) =>
          sheet ← lift (fill_entry entry sheet);
          save_as outFilename (<[id := Some sheet]> workbook)
      end).
Proof. done. Qed.

Lemma fillDataToTemplate_earlier_unfold (entry : jsval) (outFilename : string) :
  fillDataToTemplate_earlier entry outFilename =
    open_template "template3.xlsx" (λ workbook,
      match getWorksheet "data" workbook with
      | None =>
          throw (Error ("Worksheet " +:+ quote +:+ "data" +:+ quote +:+
                        " not found in template"))
      | Some (id, sheet) =>
          sheet ← lift (fill_entry_earlier entry sheet);
          save_as outFilename (<[id := Some sheet]> workbook)
      end).
Proof. done. Qed.

Lemma getWorksheet_lookup (n : string) (wb : workbook) (id : nat) (ws : worksheet) :
  getWorksheet n wb = Some (id, ws) → wb !! id = Some (Some ws) ∧ name ws = n.
Proof.
  unfold getWorksheet. intros Hget.
  destruct (list_find _ wb) as [[i o]|] eqn:Hfind; simpl in Hget; [|done].
  destruct o as [ws'|]; simpl in Hget; [|done]. injection Hget as <- <-.
  apply list_find_Some in Hfind as (Hlook & Hname & _).
  split; [done|]. simpl in Hname. by injection Hname.
Qed.

(** C9: the earlier variant of the template filler does what the current
    one does: from the same file system, for every entry and output file
    name, both leave the same file system, with the same workbook in the
    output file, and both return the same path or throw the same error. *)
Theorem fillDataToTemplate_earlier_same
    (entry : jsval) (outFilename : string) (fs : filesystem) :
  (∀ wb, fs !! path_join __dirname "template3.xlsx" = Some (XlsxFile wb) →
         wf_sheets wb) →
  fillDataToTemplate_earlier entry outFilename fs =
  fillDataToTemplate entry outFilename fs.
Proof.
  intros Hwf.
  rewrite fillDataToTemplate_unfold, fillDataToTemplate_earlier_unfold.
  rewrite !open_template_run.
  destruct (fs !! path_join __dirname "template3.xlsx") as [[|raw|wb]|] eqn:Htpl;
    try done.
  destruct (getWorksheet "data" wb) as [[id sheet]|] eqn:Hget; [|done].
  apply getWorksheet_lookup in Hget as [Hlook _].
  unfold mbind, io_bind, lift.
  rewrite fill_entry_earlier_eq; [done|]. by eapply (Hwf wb).
Qed.

(** *** Worksheets of a workbook *)















Lemma array_set_replace (id : nat) (ws ws' : worksheet) (wb : workbook) :
  <[id := Some ws']> (array_set id ws wb) = array_set id ws' wb.
Proof.
  unfold array_set. case_decide as Hlt.
  - by rewrite list_insert_insert_eq.
  - rewrite insert_app_r_alt by lia.
    rewrite insert_app_r_alt by (rewrite length_replicate; lia).
    rewrite length_replicate.
    by replace (id - length wb - (id - length wb)) with 0 by lia.
Qed.

(** *** Applying the merged ranges *)

Lemma split_colon_includes (r : string) :
  is_Some (split_colon r) → includes_colon r = true.
Proof.
  induction r as [|c r IH]; simpl; [by intros [??]|].
  destruct (Ascii.eqb c ":"); [done|].
  intros [p Hp]. apply IH. destruct (split_colon r); [by eexists|done].
Qed.

Lemma decodeRange_colon (r : string) (d : rect) :
  decodeRange r = Some d → includes_colon r = true.
Proof.
  unfold decodeRange. intros Hd. apply split_colon_includes.
  destruct (split_colon r); [by eexists|done].
Qed.


Lemma existsb_self (d : rect) (l : list rect) :
  d ∈ l → normal d → existsb (intersects d) l = true.
Proof.
  intros Hin Hd. apply existsb_exists. exists d.
  split; [by apply list_elem_of_In|by apply intersects_self].
Qed.



Lemma mergeCells_ok (r : string) (d : rect) (ws : worksheet) :
  decodeRange r = Some d → existsb (intersects d) (merge_rects ws) = false →
  ∃ ws', mergeCells r ws = Ok ws' ∧ merges ws' = merges ws ++ [r] ∧
         name ws' = name ws.
Proof.
  intros Hd Hfree. unfold mergeCells. rewrite Hd, Hfree. by eexists.
Qed.

Lemma mergeCells_conflict (r : string) (d : rect) (ws : worksheet) :
  decodeRange r = Some d → existsb (intersects d) (merge_rects ws) = true →
  ∃ e, mergeCells r ws = Throw e.
Proof.
  intros Hd Hmeet. unfold mergeCells. rewrite Hd, Hmeet. by eexists.
Qed.



Lemma applyMerges_cons (range : jsval) (ranges : list jsval) (s : worksheet) :
  applyMerges (range :: ranges) s = applyMerges ranges (merge_step s range).
Proof. done. Qed.

Lemma merge_step_merged (r : string) (d : rect) (s : worksheet) :
  decodeRange r = Some d → existsb (intersects d) (merge_rects s) = false →
  merges (merge_step s (JStr r)) = merges s ++ [r].
Proof.
  intros Hd Hfree. unfold merge_step. rewrite (decodeRange_colon r d Hd).
  by destruct (mergeCells_ok r d s Hd Hfree) as (s' & -> & Hm & _).
Qed.

Lemma merge_step_undecoded (r : string) (s : worksheet) :
  decodeRange r = None → merge_step s (JStr r) = s.
Proof.
  intros Hd. unfold merge_step, mergeCells. rewrite Hd. by case_match.
Qed.

Lemma merge_step_conflict (r : string) (d : rect) (s : worksheet) :
  decodeRange r = Some d → existsb (intersects d) (merge_rects s) = true →
  merge_step s (JStr r) = s.
Proof.
  intros Hd Hmeet. unfold merge_step.
  destruct (mergeCells_conflict r d s Hd Hmeet) as [e ->]. by case_match.
Qed.





(** *** Filling in an element *)

Lemma get_object (item : jsval) (k : string) :
  item ≠ JUndefined → item ≠ JNull →
  get item k = Ok (default JUndefined (own_props item !! k)).
Proof. intros ??. by destruct item. Qed.

Lemma or_else_object (elem : jsval) :
  or_else elem (JObj ∅) ≠ JUndefined ∧ or_else elem (JObj ∅) ≠ JNull.
Proof.
  unfold or_else. destruct (truthy elem) eqn:Ht; [|done]. by destruct elem.
Qed.

Lemma setCellValueKeepingMerge_run (address : string) (a : addr) (v : jsval)
    (sheet : worksheet) :
  decodeAddress address = Some a →
  setCellValueKeepingMerge address v sheet = Ok (set_value (master sheet a) v sheet).
Proof.
  intros Ha. unfold setCellValueKeepingMerge, cell_at. by rewrite Ha.
Qed.


Lemma year_or_name2 (item : jsval) (k : jsval → result worksheet) :
  item ≠ JUndefined → item ≠ JNull →
  (year ← get item "year";
   year_or_name2 ← (match year with
                    | JUndefined | JNull => get item "name2"
                    | _ => Ok year
                    end);
   k (nullish year_or_name2 (JStr ""))) = k (year_value item).
Proof.
  intros Hu Hn. rewrite !get_object by done. cbn [mbind result_bind].
  unfold year_value. by destruct (default JUndefined (own_props item !! "year")).
Qed.



Lemma fill_field_total (address : string) (a : addr) (obj : jsval) (k : string)
    (sheet : worksheet) :
  decodeAddress address = Some a → obj ≠ JUndefined → obj ≠ JNull →
  fill_field address obj k sheet =
    Ok (set_value (master sheet a) (field_value obj k) sheet).
Proof.
  intros Ha Hu Hn. unfold fill_field. rewrite get_object by done.
  cbn [mbind result_bind]. by apply setCellValueKeepingMerge_run.
Qed.

(** Whatever the merged ranges of the sheet, filling in an element that is
    not [null] or [undefined] does not throw, and changes neither the name
    nor the merged ranges of the sheet. *)
Lemma fill_item_total (item : jsval) (s : worksheet) :
  item ≠ JUndefined → item ≠ JNull →
  ∃ s', fill_item item s = Ok s' ∧ name s' = name s ∧ merges s' = merges s.
Proof.
  intros Hu Hn. unfold fill_item.
  rewrite (fill_field_total "C6" C6) by done. cbn [mbind result_bind].
  rewrite (year_or_name2 item (λ v, newSheet ← setCellValueKeepingMerge "C7" v _; _))
    by done.
  rewrite (setCellValueKeepingMerge_run "C7" C7) by done. cbn [mbind result_bind].
  rewrite (fill_field_total "C8" C8) by done. cbn [mbind result_bind].
  rewrite (fill_field_total "C9" C9) by done. cbn [mbind result_bind].
  rewrite (fill_field_total "C10" C10) by done. cbn [mbind result_bind].
  rewrite (setCellValueKeepingMerge_run "F6" F6) by done.
  by eexists.
Qed.







(** *** The loop of the cloner *)

Lemma copy_item_run (formSheet : worksheet) (ranges : list jsval) (i : nat)
    (elem : jsval) (wb : workbook) :
  copy_item formSheet ranges i elem wb =
    s ← clone_of formSheet ranges i elem;
    Ok (array_set (nextId (without (sheet_name i) wb)) s (without (sheet_name i) wb)).
Proof.
  unfold copy_item, clone_of, addWorksheet.
  fold (without (sheet_name i) wb). fold (blank_sheet formSheet (sheet_name i)).
  destruct (fill_copy _ _ _ _ _) as [s|e]; cbn [mbind result_bind]; [|done].
  by rewrite array_set_replace.
Qed.






(** *** Runs of the cloner and of the filler *)

Lemma createCopies_unfold (dataArray : list jsval) (outFilename : string) (opts : jsval) :
  createCopiesFromTemplateAll dataArray outFilename opts =
    templateFile ← lift (option_or opts "templateFile" "template-all.xlsx");
    formSheetName ← lift (option_or opts "formSheetName" "form");
    open_template templateFile (λ workbook,
      match getWorksheet formSheetName workbook with
      | None =>
          throw (Error ("Worksheet " +:+ quote +:+ formSheetName +:+ quote +:+
                        " not found in " +:+ templateFile))
      | Some (_, formSheet) =>
          workbook ← lift (copy_items formSheet (getMergeRanges formSheet) 0
                             dataArray workbook);
          save_as outFilename workbook
      end).
Proof. done. Qed.







(** *** The sheets of the cloner *)




(** *** The cells of the filler *)



(** *** Elements that are null or undefined *)







(** *** Ranges that cannot be merged *)

Lemma merge_step_cases (s : worksheet) (range : jsval) :
  merge_step s range = s ∨
  ∃ r d, range = JStr r ∧ decodeRange r = Some d ∧
         existsb (intersects d) (merge_rects s) = false ∧
         merges (merge_step s range) = merges s ++ [r].
Proof.
  destruct range as [| | | |r| |]; try by left.
  destruct (decodeRange r) as [d|] eqn:Hd.
  - destruct (existsb (intersects d) (merge_rects s)) eqn:Hmeet.
    + left. by eapply merge_step_conflict.
    + right. exists r, d. split; [done|]. split; [done|]. split; [done|].
      by eapply merge_step_merged.
  - left. by apply merge_step_undecoded.
Qed.

Lemma applyMerges_prefix (ranges : list jsval) (s : worksheet) :
  ∃ extra, merges (applyMerges ranges s) = merges s ++ extra.
Proof.
  revert s. induction ranges as [|x rest IH]; intros s.
  - exists []. by rewrite app_nil_r.
  - rewrite applyMerges_cons. destruct (IH (merge_step s x)) as [extra ->].
    destruct (merge_step_cases s x) as [->|(r & d & _ & _ & _ & ->)].
    + by exists extra.
    + exists (r :: extra). by rewrite <- app_assoc.
Qed.







(** ** Further properties *)

(** *** Writing through merged ranges *)

Lemma set_value_style (a c : addr) (v : jsval) (ws : worksheet) :
  style (getCell (set_value a v ws) c) = style (getCell ws c).
Proof.
  unfold set_value, getCell. simpl. rewrite lookup_insert.
  case_decide; by subst.
Qed.

Lemma master_outside (ws : worksheet) (d : rect) (a c : addr) :
  wf_sheet ws → d ∈ merge_rects ws → contains d a = true → contains d c = false →
  master ws c ≠ master ws a.
Proof.
  intros Hwf Hd Ha Hc. rewrite (master_in ws d a) by done.
  pose proof (contains_top_left d (merge_rects_normal ws d Hd)) as Htl.
  destruct (master_cases ws c) as [[-> _]|(e & He & Hce & ->)].
  - intros ->. congruence.
  - intros Heq.
    pose proof (contains_top_left e (merge_rects_normal ws e He)) as Hte.
    rewrite Heq in Hte.
    assert (Some e = Some d) as [= ->]; [|congruence].
    rewrite <- (find_disjoint (merge_rects ws) e (top_left d)) by done.
    by rewrite (find_disjoint (merge_rects ws) d (top_left d)).
Qed.

(** X1: after setCellValueKeepingMerge at an address of a merged range,
    every cell of the range shows the value; the cells outside the range
    show what they showed; no cell changes its style and the merged ranges
    stay. *)
Theorem setCellValueKeepingMerge_shows
    (sheet : worksheet) (address : string) (a : addr) (d : rect) (v : jsval) :
  wf_sheet sheet → decodeAddress address = Some a →
  d ∈ merge_rects sheet → contains d a = true →
  ∃ sheet',
    setCellValueKeepingMerge address v sheet = Ok sheet' ∧
    (∀ b, contains d b = true → cell_value sheet' b = v) ∧
    (∀ c, contains d c = false → cell_value sheet' c = cell_value sheet c) ∧
    (∀ c, style (getCell sheet' c) = style (getCell sheet c)) ∧
    merges sheet' = merges sheet.
Proof.
  intros Hwf Ha Hd Hin. exists (set_value a v sheet).
  split; [by apply setCellValueKeepingMerge_set_value|].
  split; [|split; [|split; [|done]]].
  - intros b Hb. rewrite cell_value_set_value.
    rewrite (master_in sheet d a), (master_in sheet d b) by done.
    by rewrite decide_True.
  - intros c Hc. rewrite cell_value_set_value.
    rewrite decide_False; [done|]. intros Heq.
    by apply (master_outside sheet d a c).
  - intros c. apply set_value_style.
Qed.

Lemma set_value_twice (a b : addr) (v w : jsval) (ws : worksheet) :
  master ws a = master ws b →
  set_value b w (set_value a v ws) = set_value b w ws.
Proof.
  intros Hm. unfold set_value at 1 3. rewrite set_value_master.
  rewrite <- Hm. unfold getCell. unfold set_value at 1 2. simpl.
  rewrite lookup_insert_eq. simpl. by rewrite insert_insert_eq.
Qed.

Lemma set_value_swap (a b : addr) (v w : jsval) (ws : worksheet) :
  master ws a ≠ master ws b →
  set_value b w (set_value a v ws) = set_value a v (set_value b w ws).
Proof.
  intros Hm. unfold set_value at 1 3. rewrite !set_value_master.
  unfold getCell. unfold set_value. simpl.
  rewrite !lookup_insert_ne by done. by rewrite insert_insert_ne.
Qed.

(** X2: two writes with setCellValueKeepingMerge to addresses with the same
    master leave the sheet that the second write alone leaves; two writes to
    addresses with different masters give the same sheet in either order. *)
Theorem setCellValueKeepingMerge_twice
    (sheet : worksheet) (address1 address2 : string) (a1 a2 : addr) (v w : jsval) :
  wf_sheet sheet →
  decodeAddress address1 = Some a1 → decodeAddress address2 = Some a2 →
  (master sheet a1 = master sheet a2 →
   (s ← setCellValueKeepingMerge address1 v sheet;
    setCellValueKeepingMerge address2 w s)
   = setCellValueKeepingMerge address2 w sheet) ∧
  (master sheet a1 ≠ master sheet a2 →
   (s ← setCellValueKeepingMerge address1 v sheet;
    setCellValueKeepingMerge address2 w s)
   = (s ← setCellValueKeepingMerge address2 w sheet;
      setCellValueKeepingMerge address1 v s)).
Proof.
  intros Hwf H1 H2.
  rewrite (setCellValueKeepingMerge_set_value address1 a1) by done.
  rewrite (setCellValueKeepingMerge_set_value address2 a2 w sheet) by done.
  cbn [mbind result_bind].
  rewrite (setCellValueKeepingMerge_set_value address2 a2) by done.
  rewrite (setCellValueKeepingMerge_set_value address1 a1) by done.
  split; intros Hm; f_equal; [by apply set_value_twice|by apply set_value_swap].
Qed.

(** *** When the filler and the cloner succeed *)


Lemma fill_entry_total (entry : jsval) (sheet : worksheet) :
  entry ≠ JUndefined → entry ≠ JNull → ∃ sheet', fill_entry entry sheet = Ok sheet'.
Proof.
  intros Hu Hn. unfold fill_entry.
  rewrite (fill_field_total "C1" C1) by done. cbn [mbind result_bind].
  rewrite (fill_field_total "C2" C2) by done. cbn [mbind result_bind].
  rewrite (fill_field_total "C3" C3) by done. cbn [mbind result_bind].
  rewrite (fill_field_total "C4" C4) by done. cbn [mbind result_bind].
  rewrite (fill_field_total "C5" C5) by done. cbn [mbind result_bind].
  rewrite (fill_field_total "C6" C6) by done. by eexists.
Qed.





Lemma createCopies_cases (dataArray : list jsval) (outFilename : string) (opts : jsval)
    (fs : filesystem) :
  createCopiesFromTemplateAll dataArray outFilename opts fs =
    match option_or opts "templateFile" "template-all.xlsx" with
    | Throw e => (fs, Throw e)
    | Ok templateFile =>
        match option_or opts "formSheetName" "form" with
        | Throw e => (fs, Throw e)
        | Ok formSheetName =>
            match fs !! path_join __dirname templateFile with
            | None =>
                (fs, Throw (Error ("Template not found: " +:+
                                   path_join __dirname templateFile)))
            | Some Directory => (with_out_dir fs, Throw (SystemError "EISDIR"))
            | Some (TextFile _) => (with_out_dir fs, Throw (Error "not a workbook file"))
            | Some (XlsxFile wb) =>
                match getWorksheet formSheetName wb with
                | None =>
                    (with_out_dir fs,
                     Throw (Error ("Worksheet " +:+ quote +:+ formSheetName +:+ quote +:+
                                   " not found in " +:+ templateFile)))
                | Some (_, formSheet) =>
                    match copy_items formSheet (getMergeRanges formSheet) 0 dataArray wb with
                    | Throw e => (with_out_dir fs, Throw e)
                    | Ok wb' => save_as outFilename wb' (with_out_dir fs)
                    end
                end
            end
        end
    end.
Proof.
  rewrite createCopies_unfold. unfold mbind at 1 2. unfold io_bind at 1 2.
  unfold lift at 1 2.
  destruct (option_or opts "templateFile" "template-all.xlsx") as [tf|]; [|done].
  destruct (option_or opts "formSheetName" "form") as [fsn|]; [|done].
  rewrite open_template_run.
  destruct (fs !! _) as [[| |wb]|]; try done.
  destruct (getWorksheet fsn wb) as [[id formSheet]|]; [|done].
  unfold mbind, io_bind, lift. by destruct (copy_items _ _ _ _ _).
Qed.




(** *** What the filler shows and what it keeps *)















(** *** What the copies show and what they keep *)


















(** *** The fields of an element that reach its copy *)

Lemma fill_item_ext (item item' : jsval) (s : worksheet) :
  item ≠ JUndefined → item ≠ JNull → item' ≠ JUndefined → item' ≠ JNull →
  (∀ k, k ∈ cloner_fields → own_props item !! k = own_props item' !! k) →
  fill_item item s = fill_item item' s.
Proof.
  intros Hu Hn Hu' Hn' Hsame.
  assert (∀ k, k ∈ cloner_fields → get item k = get item' k) as Hget.
  { intros k Hk. rewrite !get_object by done. by rewrite Hsame. }
  unfold fill_item, fill_field.
  rewrite (Hget "name"), (Hget "year"), (Hget "name2"), (Hget "school"),
    (Hget "address"), (Hget "address2") by (unfold cloner_fields; repeat constructor).
  done.
Qed.

Lemma clone_of_ext (formSheet : worksheet) (ranges : list jsval) (i : nat)
    (elem elem' : jsval) :
  same_fields elem elem' →
  clone_of formSheet ranges i elem = clone_of formSheet ranges i elem'.
Proof.
  intros Hsame. unfold clone_of, fill_copy.
  destruct (or_else_object elem) as [Hu Hn].
  destruct (or_else_object elem') as [Hu' Hn'].
  by rewrite (fill_item_ext (or_else elem (JObj ∅)) (or_else elem' (JObj ∅))).
Qed.

Lemma copy_items_ext (formSheet : worksheet) (ranges : list jsval)
    (dataArray dataArray' : list jsval) (i0 : nat) (wb : workbook) :
  Forall2 same_fields dataArray dataArray' →
  copy_items formSheet ranges i0 dataArray wb =
  copy_items formSheet ranges i0 dataArray' wb.
Proof.
  intros Hall. revert i0 wb.
  induction Hall as [|elem elem' rest rest' Hsame _ IH]; intros i0 wb; [done|].
  cbn [copy_items]. rewrite !copy_item_run, (clone_of_ext _ _ _ elem elem') by done.
  destruct (clone_of formSheet ranges i0 elem') as [s|]; [|done].
  cbn [mbind result_bind]. apply IH.
Qed.

(** Two data arrays on which the loop does the same give the same run. *)
Lemma createCopies_loop (dataArray dataArray' : list jsval) (outFilename : string)
    (opts : jsval) (fs : filesystem) :
  (∀ formSheet wb,
     copy_items formSheet (getMergeRanges formSheet) 0 dataArray wb =
     copy_items formSheet (getMergeRanges formSheet) 0 dataArray' wb) →
  createCopiesFromTemplateAll dataArray outFilename opts fs =
  createCopiesFromTemplateAll dataArray' outFilename opts fs.
Proof.
  intros Hloop. rewrite !createCopies_cases.
  destruct (option_or opts "templateFile" "template-all.xlsx") as [tf|]; [|done].
  destruct (option_or opts "formSheetName" "form") as [fsn|]; [|done].
  destruct (fs !! _) as [[| |wb]|]; try done.
  destruct (getWorksheet fsn wb) as [[id formSheet]|]; [|done].
  by rewrite Hloop.
Qed.

Lemma falsy_no_props (v : jsval) : truthy v = false → own_props v = ∅.
Proof.
  destruct v as [| |b|n|s|l|m]; try done. simpl.
  case_bool_decide as Hs; [by subst|done].
Qed.

(** An element with a property [k] added or replaced has the fields of the
    element, but [k]. *)
Lemma same_fields_spread (item : jsval) (k : string) (x : jsval) :
  k ∉ cloner_fields → same_fields (spread_with item k x) item.
Proof.
  intros Hk f Hf. unfold spread_with, or_else at 1. cbn [truthy own_props].
  rewrite lookup_insert_ne by (by intros ->).
  unfold or_else. destruct (truthy item) eqn:Ht; [done|].
  by rewrite (falsy_no_props item).
Qed.

(** X9: a copy depends on its element through the six fields name, year,
    name2, school, address and address2 only: two data arrays of the same
    length whose elements agree on these fields give the same run of the
    cloner, with the same file written. *)
Theorem createCopies_fields_only
    (dataArray dataArray' : list jsval) (outFilename : string) (opts : jsval)
    (fs : filesystem) :
  Forall2 same_fields dataArray dataArray' →
  createCopiesFromTemplateAll dataArray outFilename opts fs =
  createCopiesFromTemplateAll dataArray' outFilename opts fs.
Proof.
  intros Hall. apply createCopies_loop. intros formSheet wb.
  revert wb. generalize 0.
  induction Hall as [|elem elem' rest rest' Hsame _ IH]; intros i0 wb; [done|].
  cbn [copy_items]. rewrite !copy_item_run, (clone_of_ext _ _ _ elem elem') by done.
  destruct (clone_of formSheet (getMergeRanges formSheet) i0 elem') as [s|]; [|done].
  cbn [mbind result_bind]. apply IH.
Qed.

(** X10: the class code the loader adds to a record never reaches the copy
    of the record.  The cloner run on the records as the loader returns
    them, each with its class code, is the run on the elements of the array
    as they are in the data file; the label at F6 has 18 in it whatever the
    class code of the record is. *)
Theorem createCopies_classcode_unused
    (items : list jsval) (outFilename : string) (opts : jsval) (fs : filesystem) :
  createCopiesFromTemplateAll
    (imap (λ idx item, spread_with item "classcode" (JNum (classcode idx))) items)
    outFilename opts fs
  = createCopiesFromTemplateAll items outFilename opts fs.
Proof.
  apply createCopies_loop. intros formSheet wb. apply copy_items_ext.
  apply Forall2_same_length_lookup. split; [by rewrite length_imap|].
  intros i r item Hr Hitem. rewrite list_lookup_imap, Hitem in Hr.
  injection Hr as <-. apply same_fields_spread.
  unfold cloner_fields. rewrite !not_elem_of_cons.
  repeat split; try discriminate. apply not_elem_of_nil.
Qed.

(** *** The second pass over the merged ranges *)

Lemma merge_rects_elem (s : worksheet) (r : string) (d : rect) :
  r ∈ merges s → decodeRange r = Some d → d ∈ merge_rects s.
Proof. intros Hr Hd. unfold merge_rects. apply list_elem_of_omap. by exists r. Qed.

(** A pass over ranges that were all passed over before, on a sheet that
    still has the merged ranges the first pass left, changes nothing. *)
Lemma applyMerges_again (ranges : list jsval) (s s' : worksheet) :
  (∀ r, r ∈ merges (applyMerges ranges s) → r ∈ merges s') →
  applyMerges ranges s' = s'.
Proof.
  revert s. induction ranges as [|x rest IH]; intros s Hsub; [done|].
  rewrite applyMerges_cons in Hsub.
  destruct (applyMerges_prefix rest (merge_step s x)) as [extra Hextra].
  assert (∀ r, r ∈ merges (merge_step s x) → r ∈ merges s') as Hstep.
  { intros r Hr. apply Hsub. rewrite Hextra, elem_of_app. by left. }
  rewrite applyMerges_cons.
  assert (merge_step s' x = s') as ->; [|by apply (IH (merge_step s x))].
  destruct x as [| | | |r| |]; try done.
  destruct (decodeRange r) as [d|] eqn:Hd; [|by apply merge_step_undecoded].
  apply (merge_step_conflict r d); [done|].
  destruct (existsb (intersects d) (merge_rects s)) eqn:Hmeet.
  - rewrite (merge_step_conflict r d s) in Hstep by done.
    apply existsb_exists in Hmeet as (e & He & Hmeet).
    apply existsb_exists. exists e. split; [|done].
    apply list_elem_of_In. apply list_elem_of_In in He.
    unfold merge_rects in He. apply list_elem_of_omap in He as (r' & Hr' & He).
    eapply merge_rects_elem; [|done]. by apply Hstep.
  - apply existsb_self; [|by eapply decodeRange_normal].
    eapply merge_rects_elem; [|done]. apply Hstep.
    rewrite (merge_step_merged r d) by done. rewrite elem_of_app, list_elem_of_singleton.
    by right.
Qed.

Lemma fill_item_merges (item : jsval) (s s' : worksheet) :
  fill_item item s = Ok s' → merges s' = merges s.
Proof.
  intros Hfill.
  assert (item ≠ JUndefined ∧ item ≠ JNull) as [Hu Hn].
  { split; intros ->; simpl in Hfill; discriminate. }
  destruct (fill_item_total item s Hu Hn) as (s'' & Hs'' & _ & Hm). congruence.
Qed.

(** X11: the second pass over the merged ranges, lines 222 to 235 of the
    cloner and lines 355 to 364 of the single-sheet copier, never changes
    the sheet: every range of the list was merged by the first pass or met a
    merged range then, and meets one now.  The body of the loop of the
    cloner is the six writes on the prepared sheet, whatever the list of
    ranges holds. *)
Theorem second_merge_pass_idle
    (formSheet newSheet : worksheet) (ranges : list jsval) (sheetName : string)
    (item : jsval) :
  fill_copy formSheet ranges sheetName item newSheet
    = fill_item item (prepared formSheet ranges sheetName newSheet) ∧
  copy_form formSheet newSheet
    = copy_settings formSheet
        (applyMerges (gather_merge_keys formSheet)
           (copy_rows formSheet (copy_columns formSheet newSheet))) ∧
  applyMerges ranges (applyMerges ranges newSheet) = applyMerges ranges newSheet.
Proof.
  split; [|split].
  - unfold fill_copy. fold (prepared formSheet ranges sheetName newSheet).
    destruct (fill_item item _) as [s'|e] eqn:Hfill; [|done].
    cbn [mbind result_bind]. f_equal.
    apply (applyMerges_again ranges
             (copy_rows formSheet
                (copy_columns formSheet (clone_model formSheet sheetName newSheet)))).
    intros r Hr. by rewrite (fill_item_merges _ _ _ Hfill).
  - unfold copy_form.
    apply (applyMerges_again _ (copy_rows formSheet (copy_columns formSheet newSheet))).
    by intros r Hr.
  - by apply (applyMerges_again ranges newSheet).
Qed.


(** *** Columns, rows and styles of the copies *)



















(** *** The command line *)











(** *** The single-sheet copier *)











(** *** The earlier command line *)





(** *** The records the loader returns *)

Lemma readData_Ok (dataPath : option string) (fs : filesystem) (records : list jsval) :
  (readDataWithClasscodes dataPath fs).2 = Ok records →
  ∃ items, records = imap (λ idx item,
                       spread_with item "classcode" (JNum (classcode idx))) items.
Proof.
  destruct (fs !! data_file dataPath) as [n|] eqn:Hfile.
  - rewrite (readData_present _ _ _ Hfile). cbn [snd].
    destruct ((readFileSync (data_file dataPath) fs).2) as [raw|]; [|done].
    destruct (JSON_parse raw) as [[| | | | |items|]|]; try done.
    intros [= <-]. by exists items.
  - by rewrite (readData_absent _ _ Hfile).
Qed.

(** X18: whatever the elements of the array in the data file are, objects,
    numbers, strings or null, every record the loader returns is an object
    with its class code: [|| {}] leaves it as it is, and neither the six
    writes of the filler nor those of the cloner throw on it. *)
Theorem loaded_records_fill
    (dataPath : option string) (fs : filesystem) (records : list jsval)
    (i : nat) (r : jsval) :
  (readDataWithClasscodes dataPath fs).2 = Ok records → records !! i = Some r →
  (∃ fields, r = JObj fields ∧ fields !! "classcode" = Some (JNum (classcode i))) ∧
  or_else r (JObj ∅) = r ∧
  (∀ sheet, ∃ sheet', fill_entry r sheet = Ok sheet') ∧
  (∀ sheet, ∃ sheet', fill_item r sheet = Ok sheet').
Proof.
  intros Hrun Hr. apply readData_Ok in Hrun as [items ->].
  rewrite list_lookup_imap in Hr.
  destruct (items !! i) as [item|]; [|done]. injection Hr as <-.
  split; [|split; [done|split]].
  - eexists. split; [done|]. by rewrite lookup_insert_eq.
  - intros sheet. by apply fill_entry_total.
  - intros sheet.
    destruct (fill_item_total (spread_with item "classcode" (JNum (classcode i))) sheet)
      as (sheet' & ? & _); [done..|]. by exists sheet'.
Qed.


(** *** The settings of the copies *)











End App.

(** ** The properties on the sample inputs *)

Lemma readDataWithClasscodes_classcode_witness :
  readFileSync Sample.text_of (data_file Sample.dirname Sample.join Sample.resolve None)
    (Sample.data_fs "[{},{}]") = (Sample.data_fs "[{},{}]", Ok "[{},{}]") ∧
  Sample.parse "[{},{}]" = Some (JArr [JObj ∅; JObj ∅]) ∧
  ∃ records,
    readDataWithClasscodes Sample.dirname Sample.join Sample.resolve Sample.parse
      Sample.text_of None (Sample.data_fs "[{},{}]")
      = (Sample.data_fs "[{},{}]", Ok records) ∧
    length records = 2 ∧
    (classcode_of <$> records) = [Some 18%Z; Some 18%Z].
Proof.
  split; [reflexivity|]. split; [reflexivity|].
  destruct (readDataWithClasscodes_classcode Sample.dirname Sample.join Sample.resolve
              Sample.parse Sample.text_of None (Sample.data_fs "[{},{}]") "[{},{}]"
              [JObj ∅; JObj ∅] eq_refl eq_refl)
    as (records & Hrun & Hlen & Hcode & _).
  exists records. split; [exact Hrun|]. split; [exact Hlen|].
  destruct (Hcode 0) as (r0 & Hr0 & Hc0 & _); [simpl; lia|].
  destruct (Hcode 1) as (r1 & Hr1 & Hc1 & _); [simpl; lia|].
  destruct records as [|x [|y [|z rest]]]; simpl in Hlen; try discriminate.
  simpl in Hr0, Hr1. injection Hr0 as ->. injection Hr1 as ->.
  simpl. rewrite Hc0, Hc1. reflexivity.
Defined.

Lemma readDataWithClasscodes_frame_witness :
  readFileSync Sample.text_of (data_file Sample.dirname Sample.join Sample.resolve None)
    (Sample.data_fs "[{},{}]") = (Sample.data_fs "[{},{}]", Ok "[{},{}]") ∧
  Sample.parse "[{},{}]" = Some (JArr [JObj ∅; JObj ∅]) ∧
  ∃ records,
    readDataWithClasscodes Sample.dirname Sample.join Sample.resolve Sample.parse
      Sample.text_of None (Sample.data_fs "[{},{}]")
      = (Sample.data_fs "[{},{}]", Ok records) ∧
    length records = 2.
Proof.
  split; [reflexivity|]. split; [reflexivity|].
  destruct (readDataWithClasscodes_frame Sample.dirname Sample.join Sample.resolve
              Sample.parse Sample.text_of None (Sample.data_fs "[{},{}]") "[{},{}]"
              [JObj ∅; JObj ∅] eq_refl eq_refl)
    as (records & Hrun & Hlen & _).
  exists records. split; [exact Hrun|exact Hlen].
Defined.

Lemma writes_resolve_to_master_witness :
  wf_sheet (Sample.sheet_with "form" ["C6:D7"]) ∧
  decodeAddress "D7" = Some (7, 4) ∧
  merges (blank_sheet (Sample.sheet_with "form" ["C6:D7"]) "STT-0") = [] ∧
  ∃ sheet',
    setCellValueKeepingMerge "D7" (JStr "x") (Sample.sheet_with "form" ["C6:D7"])
      = Ok sheet' ∧
    cells sheet' !! (6, 3) = Some {| value := JStr "x"; style := JObj ∅ |} ∧
    cells sheet' !! (7, 4) = None.
Proof.
  split; [reflexivity|]. split; [reflexivity|]. split; [reflexivity|].
  destruct (writes_resolve_to_master Sample.refusing
              (Sample.sheet_with "form" ["C6:D7"]) (Sample.sheet_with "form" ["C6:D7"])
              (blank_sheet (Sample.sheet_with "form" ["C6:D7"]) "STT-0")
              "D7" "STT-0" (7, 4) (JStr "x") eq_refl eq_refl eq_refl)
    as [(sheet' & Hset & _ & Hcell & Hother & _) _].
  exists sheet'. split; [exact Hset|]. split; [exact Hcell|].
  etrans; [apply (Hother (7, 4)); vm_compute; discriminate|reflexivity].
Defined.

Lemma fillDataToTemplate_earlier_same_witness :
  (∀ wb, Sample.filler_fs ["C1:D1"] !! Sample.join Sample.dirname "template3.xlsx"
           = Some (XlsxFile wb) → wf_sheets wb) ∧
  fillDataToTemplate_earlier Sample.dirname Sample.join Sample.entry_AB "out.xlsx"
    (Sample.filler_fs ["C1:D1"]) =
  fillDataToTemplate Sample.dirname Sample.join Sample.entry_AB "out.xlsx"
    (Sample.filler_fs ["C1:D1"]).
Proof.
  assert (∀ wb, Sample.filler_fs ["C1:D1"] !! Sample.join Sample.dirname "template3.xlsx"
                  = Some (XlsxFile wb) → wf_sheets wb) as Hwf.
  { intros wb Hwb. vm_compute in Hwb. injection Hwb as <-.
    intros id ws Hid. destruct id as [|[|id]]; simpl in Hid; try discriminate.
    injection Hid as <-. reflexivity. }
  split; [exact Hwf|].
  exact (fillDataToTemplate_earlier_same Sample.dirname Sample.join Sample.entry_AB
           "out.xlsx" (Sample.filler_fs ["C1:D1"]) Hwf).
Defined.











(** The loader on a data file that holds an object, and without a data
    file. *)
Example loader_object :
  readDataWithClasscodes Sample.dirname Sample.join Sample.resolve Sample.parse
    Sample.text_of None (Sample.data_fs "{}")
  = (Sample.data_fs "{}", Throw (Error "Data file does not contain an array")).
Proof. reflexivity. Qed.

Example loader_no_file :
  readDataWithClasscodes Sample.dirname Sample.join Sample.resolve Sample.parse
    Sample.text_of (Some "records.json") (Sample.data_fs "[{},{}]")
  = (Sample.data_fs "[{},{}]", Throw (Error "Data file not found: records.json")).
Proof. reflexivity. Qed.

(** The cloner on a template that already has a worksheet STT-0: the
    worksheet is replaced, not doubled. *)
Example cloner_replaces :
  (wb ← copy_items Sample.refusing (Sample.sheet_with "form" ["A1:B1"])
          (getMergeRanges (Sample.sheet_with "form" ["A1:B1"])) 0 Sample.two_names
          [None; Some (Sample.sheet_with "form" ["A1:B1"]);
           Some (Sample.sheet_with "STT-0" [])];
   Ok (sheet_names wb))
  = Ok ["form"; "STT-0"; "STT-1"].
Proof. reflexivity. Qed.

(** ** The further properties on the sample inputs *)

Lemma setCellValueKeepingMerge_shows_witness :
  wf_sheet (Sample.sheet_with "form" ["C6:D7"]) ∧
  decodeAddress "D7" = Some (7, 4) ∧
  {| r_top := 6; r_left := 3; r_bottom := 7; r_right := 4 |}
    ∈ merge_rects (Sample.sheet_with "form" ["C6:D7"]) ∧
  contains {| r_top := 6; r_left := 3; r_bottom := 7; r_right := 4 |} (7, 4) = true ∧
  ∃ sheet',
    setCellValueKeepingMerge "D7" (JStr "x") (Sample.sheet_with "form" ["C6:D7"])
      = Ok sheet' ∧
    cell_value sheet' (6, 4) = JStr "x" ∧
    cell_value sheet' (1, 1) = JStr "Form".
Proof.
  assert ({| r_top := 6; r_left := 3; r_bottom := 7; r_right := 4 |}
            ∈ merge_rects (Sample.sheet_with "form" ["C6:D7"])) as Hin.
  { vm_compute. constructor. }
  split; [reflexivity|]. split; [reflexivity|]. split; [exact Hin|].
  split; [reflexivity|].
  destruct (setCellValueKeepingMerge_shows (Sample.sheet_with "form" ["C6:D7"]) "D7"
              (7, 4) {| r_top := 6; r_left := 3; r_bottom := 7; r_right := 4 |}
              (JStr "x") eq_refl eq_refl Hin eq_refl)
    as (sheet' & Hset & Hinside & Houtside & _).
  exists sheet'. split; [exact Hset|]. split; [apply Hinside; reflexivity|].
  etrans; [apply Houtside; reflexivity|reflexivity].
Defined.

Lemma setCellValueKeepingMerge_twice_witness :
  wf_sheet (Sample.sheet_with "form" ["C6:D7"]) ∧
  decodeAddress "C6" = Some (6, 3) ∧ decodeAddress "D7" = Some (7, 4) ∧
  master (Sample.sheet_with "form" ["C6:D7"]) (6, 3)
    = master (Sample.sheet_with "form" ["C6:D7"]) (7, 4) ∧
  (s ← setCellValueKeepingMerge "C6" (JStr "x") (Sample.sheet_with "form" ["C6:D7"]);
   setCellValueKeepingMerge "D7" (JStr "y") s)
  = setCellValueKeepingMerge "D7" (JStr "y") (Sample.sheet_with "form" ["C6:D7"]).
Proof.
  split; [reflexivity|]. split; [reflexivity|]. split; [reflexivity|].
  split; [reflexivity|].
  apply (proj1 (setCellValueKeepingMerge_twice (Sample.sheet_with "form" ["C6:D7"])
                  "C6" "D7" (6, 3) (7, 4) (JStr "x") (JStr "y")
                  eq_refl eq_refl eq_refl)).
  reflexivity.
Defined.





Lemma sample_same_fields :
  Forall2 same_fields Sample.two_names Sample.two_coded.
Proof.
  repeat constructor; intros k Hk; unfold cloner_fields in Hk;
    rewrite !elem_of_cons in Hk;
    destruct Hk as [->|[->|[->|[->|[->|[->|Hk]]]]]];
    try reflexivity; apply elem_of_nil in Hk; destruct Hk.
Defined.

Lemma createCopies_fields_only_witness :
  Forall2 same_fields Sample.two_names Sample.two_coded ∧
  createCopiesFromTemplateAll Sample.dirname Sample.join Sample.refusing
    Sample.two_names "out.xlsx" (JObj ∅) (Sample.cloner_fs ["C6:C7"])
  = createCopiesFromTemplateAll Sample.dirname Sample.join Sample.refusing
      Sample.two_coded "out.xlsx" (JObj ∅) (Sample.cloner_fs ["C6:C7"]).
Proof.
  split; [exact sample_same_fields|].
  exact (createCopies_fields_only Sample.dirname Sample.join Sample.refusing
           Sample.two_names Sample.two_coded "out.xlsx" (JObj ∅)
           (Sample.cloner_fs ["C6:C7"]) sample_same_fields).
Defined.










Lemma loaded_records_fill_witness :
  ∃ records r,
    (readDataWithClasscodes Sample.dirname Sample.join Sample.resolve Sample.parse
       Sample.text_of None (Sample.data_fs "[{},{}]")).2 = Ok records ∧
    records !! 1 = Some r ∧
    or_else r (JObj ∅) = r ∧
    ∃ sheet', fill_entry r (Sample.sheet_with "data" ["C1:C2"]) = Ok sheet'.
Proof.
  eexists _, _. split; [reflexivity|]. split; [reflexivity|].
  destruct (loaded_records_fill Sample.dirname Sample.join Sample.resolve Sample.parse
              Sample.text_of None (Sample.data_fs "[{},{}]") _ 1 _ eq_refl eq_refl)
    as (_ & Hor & Hfill & _).
  split; [exact Hor|exact (Hfill _)].
Defined.



(** The command line without a data file. *)
Example main_no_data :
  main Sample.dirname Sample.join Sample.resolve Sample.parse Sample.text_of
    Sample.refusing (Sample.cloner_fs ["A1:B1"])
  = (Sample.cloner_fs ["A1:B1"],
     Failed (Error "Data file not found: /srv/anweb/backend/data2.json")).
Proof. reflexivity. Qed.
